(** * Test-server harness of charm: [testserver.go]

    A shallow embedding of [FetchURL] and [SetupTestServerWithAgent]
    (package [testserver]).  The harness is sequential Go code that talks
    to collaborators living outside the package: the operating system
    (environment, sockets), [net/http], the charm server and client, the
    fake ssh agent and the [testing] framework.  The collaborators are
    taken as a record of oracles; every call the harness makes is written
    to a trace, so that the order of effects can be stated. *)

From Stdlib Require Import ZArith Lia.
From Stdlib Require Strings.Byte.
From stdpp Require Import base strings list gmap pretty.
From Equations Require Import Equations.

Local Open Scope Z_scope.
Local Open Scope string_scope.

(** ** Data model *)

(** Go's [error] values are only ever printed by the harness. *)
Definition error := string.

(** [int] is 64 bits wide on the platforms the harness runs on. *)
Definition int_min : Z := - 2 ^ 63.
Definition int_max : Z := 2 ^ 63 - 1.
Definition is_int (z : Z) : Prop := int_min <= z <= int_max.
Definition int_wrap (z : Z) : Z := (z - int_min) mod 2 ^ 64 + int_min.

(** [time.Duration] counts nanoseconds. *)
Definition time_Millisecond : Z := 1000000.
Definition time_Second : Z := 1000 * time_Millisecond.

(** [fmt.Sprintf("%d", n)]. *)
Definition fmt_d (n : Z) : string := pretty n.

(** [*http.Response]: the harness reads [StatusCode] and closes [Body]. *)
Record Response := mkResponse {
  StatusCode : Z;
  Body : string
}.

(** Modelled from the spec: [server.Config] is declared outside this
    package.  Host, the three port numbers, the private data directory and
    the embedded identity. *)
Record ServerConfig := mkServerConfig {
  Host : string;
  SSHPort : Z;
  HTTPPort : Z;
  HealthPort : Z;
  DataDir : string;
  PublicKey : string;
  PrivateKey : string
}.

(** [keygen.KeyPair], through its two accessors. *)
Record KeyPair := mkKeyPair {
  kp_PublicKey : string;
  kp_PrivateKeyPEM : string
}.

(** How a call on the test goroutine ends: it returns, it is stopped by
    [tb.Fatalf] (which ends the goroutine, running deferred calls), or it
    never comes back. *)
Inductive Outcome (A : Type) :=
| Ret (a : A)
| Fatal (msg : string)
| Hang.
Arguments Ret {A} a.
Arguments Fatal {A} msg.
Arguments Hang {A}.

(** [os.Setenv] refuses a value holding a NUL byte; the harness drops the
    error, so such a call leaves the environment as it was.  The keys of
    the harness are constants the system accepts. *)
Fixpoint has_nul (s : string) : bool :=
  match s with
  | EmptyString => false
  | String a s' => if Ascii.eqb a Ascii.zero then true else has_nul s'
  end.

Definition setenv (key value : string) (e : gmap string string)
    : gmap string string :=
  if has_nul value then e else <[key := value]> e.

Definition unsetenv (key : string) (e : gmap string string)
    : gmap string string :=
  delete key e.

Section Types.
(** What [client.Config] holds besides the six fields the harness
    assigns.  The declaration is outside this package. *)
Context {Other : Type}.

(** Modelled from the spec: [client.Config] is declared outside this
    package.  Host, ports, client-local data directory, agent-usage flag
    and agent socket address; [cc_other] stands for every field the
    harness never assigns. *)
Record ClientConfig := mkClientConfig {
  cc_Host : string;
  cc_SSHPort : Z;
  cc_HTTPPort : Z;
  cc_DataDir : string;
  cc_UseSSHAgent : bool;
  cc_SSHAgentAddr : string;
  cc_other : Other
}.

(** Modelled from the spec: [client.Client] is declared outside this
    package; a handle reports the configuration it was built from. *)
Record Client := mkClient {
  Config : ClientConfig
}.

(** [Clients] may hold one or more clients; [None] is the nil pointer. *)
Record Clients := mkClients {
  Full : option Client;
  NoAgent : option Client
}.

(** Which field of [Clients] a [client.NewClient] call is made for. *)
Inductive Slot := SlotNoAgent | SlotFull.

(** The calls the harness makes on its collaborators, in program order. *)
Inductive Event :=
| EvListen
| EvKeygen (path : string)
| EvNewServer (cfg : ServerConfig)
| EvSetenv (key value : string)
| EvUnsetenv (key : string)
| EvGoServerStart
| EvHttpGet (url : string)
| EvSleep (d : Z)
| EvBodyClose
| EvLog (msg : string)
| EvError (msg : string)
| EvAgentNew (keys : nat)
| EvGoAgentStart
| EvAgentReady (ready : bool)
| EvAgentClose
| EvServerClose
| EvConfigFromEnv
| EvNewClient (slot : Slot) (cfg : ClientConfig).

(** The two closures handed to [tb.Cleanup].  The second one captures
    [agt], which is assigned before the closure is registered and never
    afterwards: the flag says whether [agt != nil]. *)
Inductive CleanupFn :=
| CleanupAgentClose
| CleanupServerEnv (agt : bool).

(** Everything outside the package.  Oracles that may answer differently
    from call to call take the number of earlier calls. *)
Record Collab := mkCollab {
  tb_TempDir : string;
  filepath_Join : string -> string -> string;
  server_DefaultConfig : ServerConfig;
  net_Listen : nat -> error + Z;
  keygen_NewWithWrite : string -> error + KeyPair;
  server_NewServer : ServerConfig -> option error;
  server_Close : option error;
  http_Get : string -> nat -> error + Response;
  agent_Ready : nat -> bool;
  agent_Socket : string;
  client_ConfigFromEnv : gmap string string -> error + ClientConfig;
  client_NewClient : ClientConfig -> option error
}.

(** The process and the test framework as the harness sees them. *)
Record State := mkState {
  env : gmap string string;
  trace : list Event;
  cleanups : list CleanupFn;
  listen_calls : nat;
  http_calls : nat;
  ready_calls : nat
}.

Definition emit (e : Event) (st : State) : State :=
  mkState (env st) (trace st ++ [e]) (cleanups st)
          (listen_calls st) (http_calls st) (ready_calls st).

Definition with_env (f : gmap string string -> gmap string string)
    (st : State) : State :=
  mkState (f (env st)) (trace st) (cleanups st)
          (listen_calls st) (http_calls st) (ready_calls st).

Definition time_Sleep (d : Z) (st : State) : State := emit (EvSleep d) st.

(** The state after one [http.Get]. *)
Definition got (url : string) (st : State) : State :=
  mkState (env st) (trace st ++ [EvHttpGet url]) (cleanups st)
          (listen_calls st) (S (http_calls st)) (ready_calls st).

Definition set_DataDir (cfg : ServerConfig) (v : string) : ServerConfig :=
  mkServerConfig (Host cfg) (SSHPort cfg) (HTTPPort cfg) (HealthPort cfg)
                 v (PublicKey cfg) (PrivateKey cfg).
Definition set_SSHPort (cfg : ServerConfig) (v : Z) : ServerConfig :=
  mkServerConfig (Host cfg) v (HTTPPort cfg) (HealthPort cfg)
                 (DataDir cfg) (PublicKey cfg) (PrivateKey cfg).
Definition set_HTTPPort (cfg : ServerConfig) (v : Z) : ServerConfig :=
  mkServerConfig (Host cfg) (SSHPort cfg) v (HealthPort cfg)
                 (DataDir cfg) (PublicKey cfg) (PrivateKey cfg).
Definition set_HealthPort (cfg : ServerConfig) (v : Z) : ServerConfig :=
  mkServerConfig (Host cfg) (SSHPort cfg) (HTTPPort cfg) v
                 (DataDir cfg) (PublicKey cfg) (PrivateKey cfg).

(** [cfg.WithKeys(pk, sk)]. *)
Definition WithKeys (cfg : ServerConfig) (pk sk : string) : ServerConfig :=
  mkServerConfig (Host cfg) (SSHPort cfg) (HTTPPort cfg) (HealthPort cfg)
                 (DataDir cfg) pk sk.

(** The four assignments [ccfg.Host = cfg.Host] ... [ccfg.DataDir =
    clientData] made on each client configuration. *)
Definition overlay (ccfg : ClientConfig) (cfg : ServerConfig)
    (clientData : string) : ClientConfig :=
  mkClientConfig (Host cfg) (SSHPort cfg) (HTTPPort cfg) clientData
                 (cc_UseSSHAgent ccfg) (cc_SSHAgentAddr ccfg) (cc_other ccfg).

(** [ccfg.UseSSHAgent = true; ccfg.SSHAgentAddr = addr]. *)
Definition set_agent (ccfg : ClientConfig) (addr : string) : ClientConfig :=
  mkClientConfig (cc_Host ccfg) (cc_SSHPort ccfg) (cc_HTTPPort ccfg)
                 (cc_DataDir ccfg) true addr (cc_other ccfg).

(** [*sshagent.Agent]; [None] is the nil pointer. *)
Record Agent := mkAgent { agent_keys : nat }.

(** [p != nil]. *)
Definition non_nil {A} (p : option A) : bool :=
  match p with Some _ => true | None => false end.

Section Harness.
Context {Signer : Type}.
Variable W : Collab.

(** [http.Get(url)]: one request, answered by the endpoint. *)
Definition http_Get_call (url : string) (st : State)
    : (error + Response) * State :=
  (http_Get W url (http_calls st), got url st).

(** [FetchURL]: fetch the given URL with N retries.  The result is the
    Go pair of a response pointer and an error.  [retries - 1] is computed only
    under [retries > 0], where it cannot wrap around. *)
Equations? FetchURL (url : string) (retries : Z) (st : State)
    : (option Response * option error) * State
    by wf (Z.to_nat retries) lt :=
  FetchURL url retries st with http_Get_call url st => {
    | (inl err, st1) with decide (retries > 0) => {
        | left _ := FetchURL url (retries - 1) (time_Sleep time_Second st1);
        | right _ := ((None, Some err), st1) };
    | (inr resp, st1) with decide (StatusCode resp ≠ 200) => {
        | left _ :=
            ((Some resp,
              Some ("bad http status code: " ++ fmt_d (StatusCode resp))),
             st1);
        | right _ := ((Some resp, None), st1) } }.
Proof. lia. Qed.

(** *** The test goroutine as a state-and-outcome monad *)

Definition M (A : Type) : Type := State -> Outcome A * State.

Definition ret {A} (a : A) : M A := fun st => (Ret a, st).

Definition bind {A B} (m : M A) (k : A -> M B) : M B := fun st =>
  match m st with
  | (Ret a, st1) => k a st1
  | (Fatal msg, st1) => (Fatal msg, st1)
  | (Hang, st1) => (Hang, st1)
  end.

#[local] Instance M_ret : MRet M := @ret.
#[local] Instance M_bind : MBind M := fun A B k m => bind m k.

Definition act (f : State -> State) : M unit := fun st => (Ret tt, f st).

(** [tb.Fatalf]: the goroutine ends here. *)
Definition tb_Fatalf {A} (msg : string) : M A := fun st => (Fatal msg, st).

(** [x, err := f(); if err != nil { tb.Fatalf(prefix, err) }]. *)
Definition or_Fatalf {A} (pre : string) (r : error + A) : M A :=
  match r with
  | inl err => tb_Fatalf (pre ++ err)
  | inr a => ret a
  end.

(** [defer d]: [d] runs when the rest of the function returns or is
    stopped by [tb.Fatalf]. *)
Definition defer {A} (d : State -> State) (rest : M A) : M A := fun st =>
  match rest st with
  | (Hang, st1) => (Hang, st1)
  | (o, st1) => (o, d st1)
  end.

Definition tb_Log (msg : string) : M unit := act (emit (EvLog msg)).
Definition tb_Error (msg : string) : M unit := act (emit (EvError msg)).

(** [tb.Cleanup(f)]: the newest function is the first to run. *)
Definition tb_Cleanup (f : CleanupFn) : M unit := act (fun st =>
  mkState (env st) (trace st) (f :: cleanups st)
          (listen_calls st) (http_calls st) (ready_calls st)).

Definition os_Setenv (key value : string) : M unit :=
  act (fun st => with_env (setenv key value) (emit (EvSetenv key value) st)).

Definition os_Unsetenv (key : string) : M unit :=
  act (fun st => with_env (unsetenv key) (emit (EvUnsetenv key) st)).

(** [randomPort]: listen on port 0, close the listener, read the port
    back.  The oracle answers with the port of the listener's address. *)
Definition randomPort : M Z := fun st =>
  let st1 := mkState (env st) (trace st ++ [EvListen]) (cleanups st)
                     (S (listen_calls st)) (http_calls st) (ready_calls st) in
  match net_Listen W (listen_calls st) with
  | inl err => (Fatal ("could not get a random port: " ++ err), st1)
  | inr p => (Ret p, st1)
  end.

(** [agt.Ready()], one poll. *)
Definition agent_Ready_call (st : State) : bool * State :=
  let b := agent_Ready W (ready_calls st) in
  (b, mkState (env st) (trace st ++ [EvAgentReady b]) (cleanups st)
              (listen_calls st) (http_calls st) (S (ready_calls st))).

(** [for !agt.Ready() { time.Sleep(time.Millisecond * 100) }].  The loop
    has no bound in the source; [fuel] bounds the polls of the model and
    running out of it is [Hang]. *)
Fixpoint wait_Ready (fuel : nat) : M unit := fun st =>
  match fuel with
  | O => (Hang, st)
  | S fuel' =>
      let (b, st1) := agent_Ready_call st in
      if b then (Ret tt, st1)
      else wait_Ready fuel' (time_Sleep (time_Millisecond * 100) st1)
  end.

(** A call of [FetchURL] from the test goroutine. *)
Definition FetchURL_call (url : string) (retries : Z)
    : M (option Response * option error) := fun st =>
  let (r, st1) := FetchURL url retries st in (Ret r, st1).

Definition keygen_call (path : string) : M KeyPair :=
  act (emit (EvKeygen path));;
  or_Fatalf "keygen error: " (keygen_NewWithWrite W path).

Definition NewServer_call (cfg : ServerConfig) : M unit :=
  act (emit (EvNewServer cfg));;
  match server_NewServer W cfg with
  | Some err => tb_Fatalf ("new server error: " ++ err)
  | None => mret tt
  end.

Definition ConfigFromEnv_call : M ClientConfig := fun st =>
  or_Fatalf "client config from env error: "
            (client_ConfigFromEnv W (env st)) (emit EvConfigFromEnv st).

Definition NewClient_call (slot : Slot) (ccfg : ClientConfig) : M Client :=
  act (emit (EvNewClient slot ccfg));;
  match client_NewClient W ccfg with
  | Some err => tb_Fatalf ("new client error: " ++ err)
  | None => mret (mkClient ccfg)
  end.

(** [SetupTestServerWithAgent] starts a test server and a fake ssh agent
    with the given signers, sets the environment variables clients pick
    up, and returns clients forcing these settings in. *)
Definition SetupTestServerWithAgent (fuel : nat) (signers : list Signer)
    : M Clients :=
  let td := tb_TempDir W in
  let sp := filepath_Join W td ".ssh" in
  let clientData := filepath_Join W td ".client-data" in
  let cfg := server_DefaultConfig W in
  let cfg := set_DataDir cfg (filepath_Join W td ".data") in
  p ← randomPort; let cfg := set_SSHPort cfg p in
  p ← randomPort; let cfg := set_HTTPPort cfg p in
  p ← randomPort; let cfg := set_HealthPort cfg p in
  kp ← keygen_call (filepath_Join W sp "charm_server");
  let cfg := WithKeys cfg (kp_PublicKey kp) (kp_PrivateKeyPEM kp) in
  NewServer_call cfg;;
  os_Setenv "CHARM_HOST" (Host cfg);;
  os_Setenv "CHARM_SSH_PORT" (fmt_d (SSHPort cfg));;
  os_Setenv "CHARM_HTTP_PORT" (fmt_d (HTTPPort cfg));;
  os_Setenv "CHARM_DATA_DIR" clientData;;
  act (emit EvGoServerStart);;
  r ← FetchURL_call ("http://localhost:" ++ fmt_d (HealthPort cfg)) 3;
  match r.2 with
  | Some err => tb_Fatalf ("server likely failed to start: " ++ err)
  | None =>
    defer (emit EvBodyClose) (
      tb_Log "server ready!";;
      agt ← (if bool_decide (0 < length signers)%nat then
               let agt := mkAgent (length signers) in
               act (emit (EvAgentNew (length signers)));;
               act (emit EvGoAgentStart);;
               tb_Cleanup CleanupAgentClose;;
               wait_Ready fuel;;
               tb_Log ("fake ssh agent ready with "
                       ++ pretty (length signers) ++ " keys");;
               mret (Some agt)
             else mret (None : option Agent));
      tb_Cleanup (CleanupServerEnv (non_nil agt));;
      ccfg ← ConfigFromEnv_call;
      let ccfg := overlay ccfg cfg clientData in
      cl ← NewClient_call SlotNoAgent ccfg;
      let clients := mkClients None (Some cl) in
      match agt with
      | Some _ =>
          os_Setenv "CHARM_SSH_AGENT_ADDR" (agent_Socket W);;
          os_Setenv "CHARM_USE_SSH_AGENT" "true";;
          ccfg ← ConfigFromEnv_call;
          let ccfg := overlay ccfg cfg clientData in
          let ccfg := set_agent ccfg (agent_Socket W) in
          cl ← NewClient_call SlotFull ccfg;
          mret (mkClients (Some cl) (NoAgent clients))
      | None => mret clients
      end)
  end.

(** [SetupTestServer]: the harness without an agent. *)
Definition SetupTestServer (fuel : nat) : M (option Client) :=
  clients ← SetupTestServerWithAgent fuel [];
  mret (NoAgent clients).

(** The bodies of the two closures handed to [tb.Cleanup]. *)
Definition run_CleanupFn (f : CleanupFn) : M unit :=
  match f with
  | CleanupAgentClose => act (emit EvAgentClose)
  | CleanupServerEnv agt =>
      act (emit EvServerClose);;
      match server_Close W with
      | Some err => tb_Error ("failed to close server: " ++ err)
      | None => mret tt
      end;;
      os_Unsetenv "CHARM_HOST";;
      os_Unsetenv "CHARM_SSH_PORT";;
      os_Unsetenv "CHARM_HTTP_PORT";;
      os_Unsetenv "CHARM_DATA_DIR";;
      if agt then
        os_Unsetenv "CHARM_USE_SSH_AGENT";;
        os_Unsetenv "CHARM_SSH_AGENT_ADDR"
      else mret tt
  end.

(** What [testing] does when the test is over: the registered functions
    are called, last added first. *)
Fixpoint run_all (fs : list CleanupFn) (st : State) : State :=
  match fs with
  | [] => st
  | f :: fs' => run_all fs' (run_CleanupFn f st).2
  end.

Definition tb_runCleanups (st : State) : State :=
  run_all (cleanups st)
          (mkState (env st) (trace st) []
                   (listen_calls st) (http_calls st) (ready_calls st)).

(** A fresh test process with ambient environment [e]. *)
Definition init (e : gmap string string) : State := mkState e [] [] 0 0 0.

End Harness.
End Types.

(** ** Vocabulary of the statements *)

Section Vocabulary.
Context {Other : Type}.

(** The state after [n] rounds of a request followed by the one-second
    sleep. *)
Fixpoint after_failures (url : string) (n : nat) (st : @State Other)
    : State :=
  match n with
  | O => st
  | S n' => after_failures url n' (time_Sleep time_Second (got url st))
  end.

(** What [n] such rounds write to the trace. *)
Fixpoint failed_rounds (url : string) (n : nat) : list (@Event Other) :=
  match n with
  | O => []
  | S n' => EvHttpGet url :: EvSleep time_Second :: failed_rounds url n'
  end.

(** How many requests a piece of trace holds. *)
Fixpoint attempts (t : list (@Event Other)) : nat :=
  match t with
  | [] => 0
  | EvHttpGet _ :: t' => S (attempts t')
  | _ :: t' => attempts t'
  end.

(** How many sleeps a piece of trace holds. *)
Fixpoint sleeps (t : list (@Event Other)) : nat :=
  match t with
  | [] => 0
  | EvSleep _ :: t' => S (sleeps t')
  | _ :: t' => sleeps t'
  end.

(** The events a probe writes: requests and sleeps. *)
Definition is_probe_event (e : @Event Other) : Prop :=
  match e with
  | EvHttpGet _ | EvSleep _ => True
  | _ => False
  end.

(** The events of the agent-readiness loop before the flag is seen
    true: polls answered false, and sleeps. *)
Definition is_poll_event (e : @Event Other) : Prop :=
  match e with
  | EvAgentReady false | EvSleep _ => True
  | _ => False
  end.

(** The [os.Setenv] calls of a trace, and the keys of its [os.Unsetenv]
    calls. *)
Fixpoint setenv_calls (t : list (@Event Other)) : list (string * string) :=
  match t with
  | [] => []
  | EvSetenv k v :: t' => (k, v) :: setenv_calls t'
  | _ :: t' => setenv_calls t'
  end.

Fixpoint unsetenv_keys (t : list (@Event Other)) : list string :=
  match t with
  | [] => []
  | EvUnsetenv k :: t' => k :: unsetenv_keys t'
  | _ :: t' => unsetenv_keys t'
  end.

Definition is_full_NewClient (e : @Event Other) : Prop :=
  match e with
  | EvNewClient SlotFull _ => True
  | _ => False
  end.

Definition core_vars : list string :=
  ["CHARM_HOST"; "CHARM_SSH_PORT"; "CHARM_HTTP_PORT"; "CHARM_DATA_DIR"].

Definition agent_vars : list string :=
  ["CHARM_USE_SSH_AGENT"; "CHARM_SSH_AGENT_ADDR"].

(** The server configuration once the ports and the keys are in. *)
Definition final_cfg (W : @Collab Other) (p1 p2 p3 : Z) (kp : KeyPair)
    : ServerConfig :=
  WithKeys
    (set_HealthPort
       (set_HTTPPort
          (set_SSHPort
             (set_DataDir (server_DefaultConfig W)
                          (filepath_Join W (tb_TempDir W) ".data"))
             p1)
          p2)
       p3)
    (kp_PublicKey kp) (kp_PrivateKeyPEM kp).

Definition clientData (W : @Collab Other) : string :=
  filepath_Join W (tb_TempDir W) ".client-data".

(** The trace of a setup from its first call to the start of the server
    goroutine. *)
Definition boot_trace (W : @Collab Other) (cfg : ServerConfig)
    : list (@Event Other) :=
  [EvListen; EvListen; EvListen;
   EvKeygen (filepath_Join W (filepath_Join W (tb_TempDir W) ".ssh")
                           "charm_server");
   EvNewServer cfg;
   EvSetenv "CHARM_HOST" (Host cfg);
   EvSetenv "CHARM_SSH_PORT" (fmt_d (SSHPort cfg));
   EvSetenv "CHARM_HTTP_PORT" (fmt_d (HTTPPort cfg));
   EvSetenv "CHARM_DATA_DIR" (clientData W);
   EvGoServerStart].

(** The environment after the four core variables are written. *)
Definition core_env (W : @Collab Other) (cfg : ServerConfig)
    (e : gmap string string) : gmap string string :=
  setenv "CHARM_DATA_DIR" (clientData W)
    (setenv "CHARM_HTTP_PORT" (fmt_d (HTTPPort cfg))
       (setenv "CHARM_SSH_PORT" (fmt_d (SSHPort cfg))
          (setenv "CHARM_HOST" (Host cfg) e))).

(** The environment after the two agent variables are written. *)
Definition agent_env (W : @Collab Other) (e : gmap string string)
    : gmap string string :=
  setenv "CHARM_USE_SSH_AGENT" "true"
    (setenv "CHARM_SSH_AGENT_ADDR" (agent_Socket W) e).

(** What closing the server adds to the trace: the call, and the report
    of its error if there is one. *)
Definition close_report (W : @Collab Other) : list (@Event Other) :=
  EvServerClose ::
  match server_Close W with
  | Some err => [EvError ("failed to close server: " ++ err)]
  | None => []
  end.

(** [client.ConfigFromEnv] reads the fields the harness never assigns
    the same way whether or not the two agent variables are set. *)
Definition ConfigFromEnv_frame (W : @Collab Other) : Prop :=
  forall e k1 k2,
    client_ConfigFromEnv W e = inr k1 ->
    client_ConfigFromEnv W (agent_env W e) = inr k2 ->
    cc_other k2 = cc_other k1.

(** What the registered cleanups add to the trace. *)
Definition teardown (W : @Collab Other) (st : State) : list (@Event Other) :=
  drop (length (trace st)) (trace (tb_runCleanups W st)).

End Vocabulary.

(** ** Concrete collaborators

    A small world to run the harness in: ports are handed out from 40000
    upwards, key generation, server and client construction succeed, and
    the client configuration is read from the environment with the
    defaults of charm.  The endpoint and the agent are left open. *)

Module Demo.

Definition ConfigFromEnv (e : gmap string string)
    : error + @ClientConfig unit :=
  inr (mkClientConfig
         (default "cloud.charm.sh" (e !! "CHARM_HOST")) 35353 35354
         (default "" (e !! "CHARM_DATA_DIR"))
         (bool_decide (e !! "CHARM_USE_SSH_AGENT" = Some "true"))
         (default "" (e !! "CHARM_SSH_AGENT_ADDR")) tt).

Definition world (get : string -> nat -> error + Response)
    (ready : nat -> bool) : @Collab unit :=
  mkCollab "/tmp/t" (fun a b => a ++ "/" ++ b)
           (mkServerConfig "localhost" 35353 35354 35356 "data" "" "")
           (fun k => inr (40000 + Z.of_nat k))
           (fun _ => inr (mkKeyPair "pub" "priv"))
           (fun _ => None) None get ready "/tmp/agent.sock"
           ConfigFromEnv (fun _ => None).

(** An endpoint nobody listens on. *)
Definition refused (k : nat) : error := "connection refused #" ++ pretty k.
Definition never_responds : string -> nat -> error + Response :=
  fun _ k => inl (refused k).

(** An endpoint that comes up after [n] refused connections. *)
Definition comes_up_after (n : nat) : string -> nat -> error + Response :=
  fun _ k => if (k <? n)%nat then inl (refused k)
             else inr (mkResponse 200 "ok").

(** An endpoint that answers, but not with 200. *)
Definition unavailable : string -> nat -> error + Response :=
  fun _ _ => inr (mkResponse 503 "starting").

Definition ready_at (n : nat) : nat -> bool := fun k => bool_decide (k = n).

(** A server that is healthy at the third request and an agent that is
    ready at the third poll. *)
Definition healthy : @Collab unit := world (comes_up_after 2) (ready_at 2).

(** The clients a run returned. *)
Definition clients_of (r : Outcome (@Clients unit) * @State unit)
    : @Clients unit :=
  match r.1 with
  | Ret clients => clients
  | _ => mkClients None None
  end.

(** An ambient environment that already names an agent. *)
Definition ambient_agent : gmap string string :=
  <["CHARM_USE_SSH_AGENT" := "true"]>
    (<["CHARM_SSH_AGENT_ADDR" := "/run/ssh-agent.sock"]> ∅).

(** A setup without signers, from an empty environment and from one that
    names an agent; a setup with one signer. *)
Definition no_agent : Outcome (@Clients unit) * @State unit :=
  SetupTestServerWithAgent (Signer:=unit) healthy 0 [] (init ∅).

Definition no_agent_ambient : Outcome (@Clients unit) * @State unit :=
  SetupTestServerWithAgent (Signer:=unit) healthy 0 [] (init ambient_agent).

Definition with_agent : Outcome (@Clients unit) * @State unit :=
  SetupTestServerWithAgent healthy 5 [tt] (init ∅).

End Demo.

(** ** The port of a listener address ([randomPort], last two lines) *)

(** The byte [':']. *)
Definition colon : Ascii.ascii := Eval cbv in Ascii.ascii_of_nat 58.

(** Does the string hold a colon? *)
Fixpoint has_colon (s : string) : bool :=
  match s with
  | EmptyString => false
  | String c s' => if Ascii.eqb c colon then true else has_colon s'
  end.

(** [strings.LastIndex(s, ":")]: the index of the last colon of [s], -1
    when there is none.  The scan goes left to right; [i] is the index of
    the head of [s] and [last] the index of the last colon seen so far. *)
Fixpoint LastIndex_colon_from (s : string) (i last : Z) : Z :=
  match s with
  | EmptyString => last
  | String c s' =>
      LastIndex_colon_from s' (i + 1) (if Ascii.eqb c colon then i else last)
  end.

Definition strings_LastIndex_colon (s : string) : Z :=
  LastIndex_colon_from s 0 (-1).

(** The string without its first [n] bytes. *)
Fixpoint string_drop (n : nat) (s : string) : string :=
  match n, s with
  | O, _ => s
  | S n', String _ s' => string_drop n' s'
  | S _, EmptyString => EmptyString
  end.

(** The slice expression [s[i:]]: Go panics unless [0 <= i <= len(s)];
    [None] is the panic. *)
Definition slice_from (s : string) (i : Z) : option string :=
  if decide (0 <= i <= Z.of_nat (String.length s))
  then Some (string_drop (Z.to_nat i) s)
  else None.

(** [addr[strings.LastIndex(addr, ":")+1:]]. *)
Definition port_text (addr : string) : option string :=
  slice_from addr (strings_LastIndex_colon addr + 1).

(** [p, _ := strconv.Atoi(addr[strings.LastIndex(addr, ":")+1:])]: the
    value [strconv.Atoi] hands back for the text, its error dropped. *)
Definition randomPort_port (Atoi : string -> Z * option error)
    (addr : string) : option Z :=
  match port_text addr with
  | Some text => Some (Atoi text).1
  | None => None
  end.

(** ** More vocabulary for the setup *)

Section VocabularyMore.
Context {Other : Type}.

(** What [k] polls answered false write to the trace, each followed by
    the 100 ms sleep. *)
Fixpoint failed_polls (k : nat) : list (@Event Other) :=
  match k with
  | O => []
  | S k' =>
      EvAgentReady false :: EvSleep (time_Millisecond * 100) :: failed_polls k'
  end.

(** The URLs of the requests of a trace, in order. *)
Fixpoint requests (t : list (@Event Other)) : list string :=
  match t with
  | [] => []
  | EvHttpGet url :: t' => url :: requests t'
  | _ :: t' => requests t'
  end.

(** How often the response body is closed in a trace. *)
Fixpoint body_closes (t : list (@Event Other)) : nat :=
  match t with
  | [] => 0
  | EvBodyClose :: t' => S (body_closes t')
  | _ :: t' => body_closes t'
  end.

(** How often a trace logs that the server is ready. *)
Fixpoint ready_logs (t : list (@Event Other)) : nat :=
  match t with
  | [] => 0
  | EvLog msg :: t' =>
      if String.eqb msg "server ready!" then S (ready_logs t')
      else ready_logs t'
  | _ :: t' => ready_logs t'
  end.

(** The calls made on the agent. *)
Definition is_agent_event (e : @Event Other) : Prop :=
  match e with
  | EvAgentNew _ | EvGoAgentStart | EvAgentReady _ | EvAgentClose => True
  | _ => False
  end.

(** The URL the setup probes. *)
Definition health_url (p3 : Z) : string := "http://localhost:" ++ fmt_d p3.

End VocabularyMore.

(** ** [compareKeyLists] (the key-value tests) *)

(** [bytes.Compare(a, b)]: the two byte slices compared lexicographically,
    0 when equal, -1 when [a] comes first, +1 when [b] does. *)
Fixpoint bytes_Compare (a b : list Byte.byte) : Z :=
  match a, b with
  | [], [] => 0
  | [], _ :: _ => -1
  | _ :: _, [] => 1
  | x :: a', y :: b' =>
      match N.compare (Byte.to_N x) (Byte.to_N y) with
      | Lt => -1
      | Gt => 1
      | Eq => bytes_Compare a' b'
      end
  end.

(** The loop [for i := range a] of [compareKeyLists], from index [i] with
    [n] indices to go.  [a[i]] and [b[i]] panic out of range: [None]. *)
Fixpoint compareKeyLists_from (a b : list (list Byte.byte)) (i n : nat)
    : option bool :=
  match n with
  | O => Some true
  | S n' =>
      match a !! i, b !! i with
      | Some x, Some y =>
          if decide (bytes_Compare x y ≠ 0) then Some false
          else compareKeyLists_from a b (S i) n'
      | _, _ => None
      end
  end.

(** [compareKeyLists(a, b)]. *)
Definition compareKeyLists (a b : list (list Byte.byte)) : option bool :=
  if decide (length a ≠ length b) then Some false
  else compareKeyLists_from a b 0 (length a).

(** ** The key-generation view (package [keygen] of the UI) *)

Module Keygen.

(** [status], an [iota] enumeration. *)
Inductive status :=
| statusRunning
| statusError
| statusSuccess
| statusDone
| statusQuitting.

(** The commands the package hands to the Tea runtime; [tea_nil] is the
    nil command. *)
Inductive Cmd :=
| tea_nil
| tea_Quit
| pause
| GenerateKeys.

Section UI.
(** The spinner, its tick message, its subscription, and the models of
    other packages, all declared outside this package. *)
Context {Spinner Tick Sub Foreign : Type}.

(** The messages [Update] tells apart by their dynamic type.  [failedMsg]
    is an interface type with the methods of [error], so that case takes
    every message that is an error value.  [KeyMsg] carries what its
    [String()] method answers; [otherMsg] is any other message. *)
Inductive Msg :=
| KeyMsg (key : string)
| failedMsg (err : error)
| successMsg
| TickMsg (tick : Tick)
| DoneMsg
| otherMsg.

Record Model := mkModel {
  m_status : status;
  m_err : option error;
  m_spinner : Spinner;
  m_standalone : bool
}.

(** [tea.Model], an interface: a [Model] of this package or a value of
    another type. *)
Definition TeaModel : Type := Model + Foreign.

(** The first result of [spinner.Update], [spinner.MakeSub], the spinner
    [spinner.NewModel()] gives once its type and colour are set, and the
    result of [charm.NewSSHKeyPair] ([None] is the nil error). *)
Variable spinner_Update : Tick -> Spinner -> Spinner.
Variable spinner_MakeSub : Spinner -> error + Sub.
Variable spinner_New : Spinner.
Variable NewSSHKeyPair : option error.

Definition set_status (m : Model) (s : status) : Model :=
  mkModel s (m_err m) (m_spinner m) (m_standalone m).

(** [NewModel]. *)
Definition NewModel : Model :=
  mkModel statusRunning None spinner_New false.

(** [Init]. *)
Definition Init : TeaModel * Cmd :=
  let m := NewModel in
  let m := mkModel (m_status m) (m_err m) (m_spinner m) true in
  (inl m, GenerateKeys).

(** [Update]. *)
Definition Update (msg : Msg) (model : TeaModel) : TeaModel * Cmd :=
  match model with
  | inr _ => (model, tea_nil)
  | inl m =>
      match msg with
      | KeyMsg key =>
          if decide (key = "ctrl+c" ∨ key = "esc" ∨ key = "q")
          then (inl (set_status m statusQuitting), tea_Quit)
          else (inl m, tea_nil)
      | failedMsg err =>
          (inl (mkModel statusError (Some err) (m_spinner m)
                        (m_standalone m)), tea_Quit)
      | successMsg => (inl (set_status m statusSuccess), pause)
      | TickMsg tick =>
          (inl (mkModel (m_status m) (m_err m)
                        (spinner_Update tick (m_spinner m))
                        (m_standalone m)), tea_nil)
      | DoneMsg =>
          if m_standalone m then (inl m, tea_Quit)
          else (inl (set_status m statusDone), tea_nil)
      | otherMsg => (inl m, tea_nil)
      end
  end.

(** [Spin]. *)
Definition Spin (model : TeaModel) : error + Sub :=
  match model with
  | inr _ => inl "could not perform assertion on model"
  | inl m => spinner_MakeSub (m_spinner m)
  end.

(** [Subscriptions]: the map holds at most the spinner subscription;
    [None] is the nil map. *)
Definition Subscriptions (model : TeaModel) : option (string * Sub) :=
  match model with
  | inr _ => None
  | inl m =>
      match Spin model with
      | inl _ => None
      | inr sub =>
          match m_status m with
          | statusRunning => Some ("keygen-spinner", sub)
          | _ => None
          end
      end
  end.

(** The message the command [GenerateKeys] ends with. *)
Definition GenerateKeys_msg : Msg :=
  match NewSSHKeyPair with
  | Some err => failedMsg err
  | None => successMsg
  end.

(** The message the command [pause] ends with, after its 500 ms sleep. *)
Definition pause_msg : Msg := DoneMsg.

(** The model after a list of messages, the commands dropped. *)
Definition feed (msgs : list Msg) (model : TeaModel) : TeaModel :=
  fold_left (fun model msg => (Update msg model).1) msgs model.

End UI.
End Keygen.

(** ** More concrete collaborators *)

Module Scenarios.

(** A server whose health endpoint answers 503. *)
Definition unhealthy : @Collab unit :=
  Demo.world Demo.unavailable (Demo.ready_at 0).

(** An agent that never reports ready. *)
Definition deaf_agent : @Collab unit :=
  Demo.world (Demo.comes_up_after 0) (fun _ => false).

(** A world like [Demo.healthy] where no client can be built. *)
Definition no_client : @Collab unit :=
  mkCollab "/tmp/t" (fun a b => a ++ "/" ++ b)
           (mkServerConfig "localhost" 35353 35354 35356 "data" "" "")
           (fun k => inr (40000 + Z.of_nat k))
           (fun _ => inr (mkKeyPair "pub" "priv"))
           (fun _ => None) None (Demo.comes_up_after 2) (Demo.ready_at 2)
           "/tmp/agent.sock" Demo.ConfigFromEnv
           (fun _ => Some "no identity").

Definition probe_fails : Outcome (@Clients unit) * @State unit :=
  SetupTestServerWithAgent (Signer:=unit) unhealthy 0 [] (init ∅).

Definition client_fails : Outcome (@Clients unit) * @State unit :=
  SetupTestServerWithAgent no_client 5 [tt] (init ∅).

Definition agent_hangs : Outcome (@Clients unit) * @State unit :=
  SetupTestServerWithAgent deaf_agent 3 [tt] (init ∅).

Definition with_agent_ambient : Outcome (@Clients unit) * @State unit :=
  SetupTestServerWithAgent Demo.healthy 5 [tt] (init Demo.ambient_agent).

Definition plain : Outcome (option (@Client unit)) * @State unit :=
  SetupTestServer (Signer:=unit) Demo.healthy 0 (init ∅).

(** The client a run of [SetupTestServer] returned. *)
Definition client_of (r : Outcome (option (@Client unit)) * @State unit)
    : option (@Client unit) :=
  match r.1 with
  | Ret c => c
  | _ => None
  end.

(** Two key lists. *)
Definition keys_one_two : list (list Byte.byte) :=
  [[Byte.x6f; Byte.x6e; Byte.x65]; [Byte.x74; Byte.x77; Byte.x6f]].

(** A model of the key-generation view, embedded in a parent, that has
    quit. *)
Definition quit_model : @Keygen.Model unit :=
  Keygen.mkModel Keygen.statusQuitting None tt false.

End Scenarios.

(** ** The readiness probe *)

Section ProbeFacts.
Context {Other : Type}.
Implicit Types (W : @Collab Other) (st : @State Other).

Lemma int_dec_no_wrap (retries : Z) :
  is_int retries -> retries > 0 -> int_wrap (retries - 1) = retries - 1.
Proof.
  unfold is_int, int_wrap, int_min, int_max. intros [Hlo Hhi] Hpos.
  rewrite Z.mod_small; lia.
Qed.

Lemma FetchURL_eq W url retries st :
  FetchURL W url retries st =
  match http_Get W url (http_calls st) with
  | inl err =>
      if decide (retries > 0)
      then FetchURL W url (retries - 1) (time_Sleep time_Second (got url st))
      else ((None, Some err), got url st)
  | inr resp =>
      if decide (StatusCode resp ≠ 200)
      then ((Some resp,
             Some ("bad http status code: " ++ fmt_d (StatusCode resp))),
            got url st)
      else ((Some resp, None), got url st)
  end.
Proof.
  rewrite FetchURL_unfold_eq. unfold FetchURL_unfold, http_Get_call.
  destruct (http_Get W url (http_calls st)) as [err|resp]; simpl.
  - destruct (decide (retries > 0)); reflexivity.
  - destruct (decide (StatusCode resp ≠ 200)); reflexivity.
Qed.

Lemma after_failures_calls url n st :
  http_calls (after_failures url n st) = (http_calls st + n)%nat.
Proof.
  revert st. induction n as [|n IH]; intros st; simpl.
  - lia.
  - rewrite IH. simpl. lia.
Qed.

Lemma after_failures_trace url n st :
  trace (after_failures url n st) = (trace st ++ failed_rounds url n)%list.
Proof.
  revert st. induction n as [|n IH]; intros st; simpl.
  - by rewrite app_nil_r.
  - rewrite IH. simpl. by rewrite <- !app_assoc.
Qed.

Lemma after_failures_frame url n st :
  env (after_failures url n st) = env st
  ∧ cleanups (after_failures url n st) = cleanups st
  ∧ listen_calls (after_failures url n st) = listen_calls st
  ∧ ready_calls (after_failures url n st) = ready_calls st.
Proof.
  revert st. induction n as [|n IH]; intros st; simpl; [done|].
  destruct (IH (time_Sleep time_Second (got url st))) as (-> & -> & -> & ->).
  done.
Qed.

(** [n] failing attempts within the budget are [n] rounds of request and
    sleep, after which the probe goes on with the budget lowered by [n]. *)
Lemma FetchURL_skip_failures W url (n : nat) : forall retries st,
  Z.of_nat n <= retries ->
  (forall k, (k < n)%nat ->
             exists err, http_Get W url (http_calls st + k) = inl err) ->
  FetchURL W url retries st
  = FetchURL W url (retries - Z.of_nat n) (after_failures url n st).
Proof.
  induction n as [|n IH]; intros retries st Hn Hfail.
  - simpl. by rewrite Z.sub_0_r.
  - rewrite FetchURL_eq.
    destruct (Hfail 0%nat) as [err Herr]; [lia|].
    rewrite Nat.add_0_r in Herr. rewrite Herr.
    destruct (decide (retries > 0)) as [_|Hneg]; [|lia].
    simpl after_failures. rewrite IH.
    + f_equal. lia.
    + lia.
    + intros k Hk. destruct (Hfail (S k)) as [e He]; [lia|].
      exists e. simpl. rewrite <- He. f_equal. lia.
Qed.

Lemma attempts_app (t1 t2 : list (@Event Other)) :
  attempts (t1 ++ t2) = (attempts t1 + attempts t2)%nat.
Proof.
  induction t1 as [|e t1 IH]; simpl; [done|].
  destruct e; simpl; rewrite IH; lia.
Qed.

Lemma sleeps_app (t1 t2 : list (@Event Other)) :
  sleeps (t1 ++ t2) = (sleeps t1 + sleeps t2)%nat.
Proof.
  induction t1 as [|e t1 IH]; simpl; [done|].
  destruct e; simpl; rewrite IH; lia.
Qed.

Lemma failed_rounds_count url n :
  attempts (failed_rounds (Other:=Other) url n) = n
  ∧ sleeps (failed_rounds (Other:=Other) url n) = n.
Proof. induction n as [|n [IH1 IH2]]; simpl; [done|]. by rewrite IH1, IH2. Qed.

End ProbeFacts.

(** ** Claims about [FetchURL] *)

Section ProbeClaims.
Context {Other : Type}.
Implicit Types (W : @Collab Other) (st : @State Other).

(** A probe leaves the environment and the cleanup stack alone, writes
    only requests and sleeps, makes at least one request and at most one
    more than its budget, and hands back a response whenever it reports
    no error. *)
Ltac probe_events :=
  repeat first [ apply Forall_nil_2 | assumption
               | apply Forall_cons_2; [exact I|] ].

Lemma FetchURL_state W url retries st :
  exists r t n,
    FetchURL W url retries st
    = (r, mkState (env st) (trace st ++ t) (cleanups st)
                  (listen_calls st) (http_calls st + n) (ready_calls st))
    ∧ Forall is_probe_event t
    ∧ (1 <= n <= Z.to_nat retries + 1)%nat
    ∧ (r.2 = None -> exists resp, r.1 = Some resp).
Proof.
  remember (Z.to_nat retries) as m eqn:Hm.
  revert retries st Hm. induction m as [|m IH]; intros retries st Hm;
    rewrite FetchURL_eq;
    destruct (http_Get W url (http_calls st)) as [err|resp].
  - destruct (decide (retries > 0)); [lia|].
    exists (None, Some err), [EvHttpGet url], 1%nat. unfold got.
    rewrite Nat.add_1_r. split_and!; [done|probe_events|lia|lia|done].
  - destruct (decide (StatusCode resp ≠ 200));
      eexists _, [EvHttpGet url], 1%nat; unfold got; rewrite Nat.add_1_r;
      (split_and!; [done|probe_events|lia|lia|simpl; eauto]).
  - destruct (decide (retries > 0)).
    + destruct (IH (retries - 1) (time_Sleep time_Second (got url st)))
        as (r & t & n & -> & Ht & Hn & Hr); [lia|].
      exists r, (EvHttpGet url :: EvSleep time_Second :: t), (S n).
      simpl. rewrite <- !app_assoc. simpl.
      replace (S (http_calls st + n)) with (http_calls st + S n)%nat by lia.
      split_and!; [done|probe_events|lia|lia|done].
    + exists (None, Some err), [EvHttpGet url], 1%nat. unfold got.
      rewrite Nat.add_1_r. split_and!; [done|probe_events|lia|lia|done].
  - destruct (decide (StatusCode resp ≠ 200));
      eexists _, [EvHttpGet url], 1%nat; unfold got; rewrite Nat.add_1_r;
      (split_and!; [done|probe_events|lia|lia|simpl; eauto]).
Qed.

(** C1, as the code has it: a response whose status is not 200 ends the
    probe at once, whatever budget is left.  The response is handed back
    with a "bad http status code" error after this one request, with no
    sleep and no retry.  Only a connection error with budget left is
    followed by the one-second sleep and a retry with the budget lowered
    by one. *)
Theorem FetchURL_bad_status_returns W url retries st :
  (forall resp,
      http_Get W url (http_calls st) = inr resp ->
      StatusCode resp ≠ 200 ->
      FetchURL W url retries st
      = ((Some resp,
          Some ("bad http status code: " ++ fmt_d (StatusCode resp))),
         got url st)
      ∧ attempts (trace (got url st)) = S (attempts (trace st))
      ∧ sleeps (trace (got url st)) = sleeps (trace st))
  ∧ (forall err,
      http_Get W url (http_calls st) = inl err ->
      retries > 0 ->
      FetchURL W url retries st
      = FetchURL W url (retries - 1) (time_Sleep time_Second (got url st))).
Proof.
  split.
  - intros resp Hget Hbad. rewrite FetchURL_eq, Hget.
    destruct (decide (StatusCode resp ≠ 200)); [|done].
    split; [done|]. simpl. rewrite attempts_app, sleeps_app. simpl. lia.
  - intros err Hget Hpos. rewrite FetchURL_eq, Hget.
    by destruct (decide (retries > 0)).
Qed.

(** C5: against an endpoint where every attempt is a transport error, a
    probe with budget [retries >= 1] makes exactly [retries + 1] requests,
    one second apart, and returns no response and the error of the last
    request. *)
Theorem FetchURL_never_responding W url retries st (errs : nat -> error) :
  retries >= 1 ->
  (forall k, http_Get W url k = inl (errs k)) ->
  exists st',
    FetchURL W url retries st
    = ((None, Some (errs (http_calls st + Z.to_nat retries)%nat)), st')
    ∧ Z.of_nat (http_calls st') = Z.of_nat (http_calls st) + (retries + 1)
    ∧ trace st'
      = (trace st ++ failed_rounds url (Z.to_nat retries)
                  ++ [EvHttpGet url])%list
    ∧ Z.of_nat (attempts (failed_rounds (Other:=Other) url (Z.to_nat retries)
                          ++ [EvHttpGet url])) = retries + 1.
Proof.
  intros Hret Hfail.
  rewrite (FetchURL_skip_failures W url (Z.to_nat retries)); [|lia|eauto].
  rewrite FetchURL_eq, Hfail, after_failures_calls.
  destruct (decide (retries - Z.of_nat (Z.to_nat retries) > 0)); [lia|].
  eexists. split_and!; [reflexivity|..].
  - simpl. rewrite after_failures_calls. lia.
  - simpl. rewrite after_failures_trace. by rewrite <- app_assoc.
  - rewrite attempts_app. destruct (failed_rounds_count (Other:=Other) url
      (Z.to_nat retries)) as [-> _]. simpl. lia.
Qed.

(** C6: when the [N]-th request is answered with status 200, the earlier
    ones having been transport errors, and [N <= retries + 1], the probe
    returns that response with a nil error after exactly [N] requests. *)
Theorem FetchURL_succeeds_on_Nth W url retries st (N : nat) resp :
  (1 <= N)%nat ->
  Z.of_nat N <= retries + 1 ->
  (forall k, (k < N - 1)%nat ->
             exists err, http_Get W url (http_calls st + k) = inl err) ->
  http_Get W url (http_calls st + (N - 1)) = inr resp ->
  StatusCode resp = 200 ->
  exists st',
    FetchURL W url retries st = ((Some resp, None), st')
    ∧ http_calls st' = (http_calls st + N)%nat
    ∧ trace st'
      = (trace st ++ failed_rounds url (N - 1) ++ [EvHttpGet url])%list.
Proof.
  intros HN Hle Hfail Hget Hok.
  rewrite (FetchURL_skip_failures W url (N - 1)); [|lia|done].
  rewrite FetchURL_eq, after_failures_calls, Hget.
  destruct (decide (StatusCode resp ≠ 200)); [done|].
  eexists. split_and!; [reflexivity|..]; simpl.
  - rewrite after_failures_calls. lia.
  - rewrite after_failures_trace. by rewrite <- app_assoc.
Qed.

(** C10: the probe is total on every integer budget: it always comes
    back, after at least one request and at most [max retries 0 + 1].
    With a budget [retries <= 0] the recursion is not entered: against a
    failing endpoint there is exactly one request, no sleep, and the
    result is a nil response with the error of that request. *)
Theorem FetchURL_total W url retries st :
  (exists r st',
      FetchURL W url retries st = (r, st')
      ∧ (http_calls st < http_calls st'
         <= http_calls st + Z.to_nat retries + 1)%nat)
  ∧ (retries <= 0 ->
     forall err,
       http_Get W url (http_calls st) = inl err ->
       exists st',
         FetchURL W url retries st = ((None, Some err), st')
         ∧ http_calls st' = S (http_calls st)
         ∧ trace st' = (trace st ++ [EvHttpGet url])%list).
Proof.
  split.
  - destruct (FetchURL_state W url retries st) as (r & t & n & -> & _ & Hn & _).
    eexists _, _. split; [reflexivity|]. simpl. lia.
  - intros Hle err Hget. rewrite FetchURL_eq, Hget.
    destruct (decide (retries > 0)); [lia|].
    by eexists.
Qed.

End ProbeClaims.

(** The probe on concrete endpoints. *)

Lemma FetchURL_bad_status_returns_witness :
  FetchURL (Demo.world Demo.unavailable (Demo.ready_at 0))
           "http://localhost:8080" 3 (init ∅)
  = ((Some (mkResponse 503 "starting"),
      Some "bad http status code: 503"),
     got "http://localhost:8080" (init ∅)).
Proof.
  pose proof (FetchURL_bad_status_returns
                (Demo.world Demo.unavailable (Demo.ready_at 0))
                "http://localhost:8080" 3 (init ∅)) as [H _].
  destruct (H (mkResponse 503 "starting")) as [Heq _];
    [reflexivity | simpl; lia | exact Heq].
Defined.

(** C1, as stated, fails: with three retries left, a 503 answer is
    returned after a single request and no sleep, which is not what a
    sleep followed by a retry with budget two gives. *)
Lemma FetchURL_bad_status_counterexample :
  http_Get (Demo.world Demo.unavailable (Demo.ready_at 0))
           "http://localhost:8080" 0
  = inr (mkResponse 503 "starting")
  ∧ trace (FetchURL (Demo.world Demo.unavailable (Demo.ready_at 0))
                    "http://localhost:8080" 3 (init ∅)).2
    = [EvHttpGet "http://localhost:8080"]
  ∧ FetchURL (Demo.world Demo.unavailable (Demo.ready_at 0))
             "http://localhost:8080" 3 (init ∅)
    ≠ FetchURL (Demo.world Demo.unavailable (Demo.ready_at 0))
               "http://localhost:8080" (3 - 1)
               (time_Sleep time_Second (got "http://localhost:8080" (init ∅))).
Proof.
  split_and!; [reflexivity|reflexivity|].
  intros Heq. apply (f_equal (fun r => length (trace r.2))) in Heq.
  vm_compute in Heq. discriminate Heq.
Qed.

Lemma FetchURL_never_responding_witness :
  exists st',
    FetchURL (Demo.world Demo.never_responds (Demo.ready_at 0))
             "http://localhost:8080" 2 (init ∅)
    = ((None, Some (Demo.refused 2)), st')
    ∧ Z.of_nat (http_calls st') = 3.
Proof.
  destruct (FetchURL_never_responding
              (Demo.world Demo.never_responds (Demo.ready_at 0))
              "http://localhost:8080" 2 (init ∅) Demo.refused)
    as (st' & Heq & Hcalls & _); [lia | reflexivity |].
  exists st'. split; [exact Heq | exact Hcalls].
Defined.

Lemma FetchURL_succeeds_on_Nth_witness :
  exists st',
    FetchURL (Demo.world (Demo.comes_up_after 2) (Demo.ready_at 0))
             "http://localhost:8080" 3 (init ∅)
    = ((Some (mkResponse 200 "ok"), None), st')
    ∧ http_calls st' = 3%nat.
Proof.
  destruct (FetchURL_succeeds_on_Nth
              (Demo.world (Demo.comes_up_after 2) (Demo.ready_at 0))
              "http://localhost:8080" 3 (init ∅) 3 (mkResponse 200 "ok"))
    as (st' & Heq & Hcalls & _).
  - lia.
  - lia.
  - intros k Hk. exists (Demo.refused k). simpl.
    destruct k as [|[|k]]; [reflexivity|reflexivity|lia].
  - reflexivity.
  - reflexivity.
  - exists st'. split; [exact Heq | exact Hcalls].
Defined.

Lemma FetchURL_total_witness :
  exists st',
    FetchURL (Demo.world Demo.never_responds (Demo.ready_at 0))
             "http://localhost:8080" (-5) (init ∅)
    = ((None, Some (Demo.refused 0)), st')
    ∧ http_calls st' = 1%nat.
Proof.
  destruct (FetchURL_total
              (Demo.world Demo.never_responds (Demo.ready_at 0))
              "http://localhost:8080" (-5) (init ∅)) as [_ H].
  destruct (H ltac:(lia) (Demo.refused 0) eq_refl) as (st' & Heq & Hcalls & _).
  exists st'. split; [exact Heq | exact Hcalls].
Defined.

(** ** Claims about [SetupTestServerWithAgent] *)

Section SetupFacts.
Context {Other Signer : Type}.
Implicit Types (W : @Collab Other) (st : @State Other).

(** The readiness loop only polls and sleeps; it comes back right after
    the poll that answered true, or it runs out of fuel. *)
Lemma wait_Ready_state W fuel st :
  exists t n,
    Forall is_poll_event t
    ∧ (wait_Ready W fuel st
       = (Ret tt,
          mkState (env st) (trace st ++ t ++ [EvAgentReady true])
                  (cleanups st) (listen_calls st) (http_calls st)
                  (ready_calls st + S n))
       ∨ wait_Ready W fuel st
         = (Hang,
            mkState (env st) (trace st ++ t) (cleanups st)
                    (listen_calls st) (http_calls st) (ready_calls st + n))).
Proof.
  revert st. induction fuel as [|fuel IH]; intros st.
  - exists [], 0%nat. split; [apply Forall_nil_2|]. right. simpl.
    rewrite app_nil_r, Nat.add_0_r. by destruct st.
  - simpl. unfold agent_Ready_call.
    destruct (agent_Ready W (ready_calls st)) eqn:Hready.
    + exists [], 0%nat. split; [apply Forall_nil_2|]. left.
      by rewrite Nat.add_1_r.
    + match goal with |- context [wait_Ready W fuel ?s] =>
        destruct (IH s) as (t & n & Ht & Hcase) end.
      exists (EvAgentReady false :: EvSleep (time_Millisecond * 100) :: t),
             (S n).
      split; [by repeat (apply Forall_cons_2; [exact I|])|].
      simpl in Hcase. rewrite <- !app_assoc in Hcase. simpl in Hcase.
      replace (S (ready_calls st + S n))%nat
        with (ready_calls st + S (S n))%nat in Hcase by lia.
      replace (S (ready_calls st + n))%nat
        with (ready_calls st + S n)%nat in Hcase by lia.
      exact Hcase.
Qed.

Ltac run := cbv beta iota zeta delta
  [SetupTestServerWithAgent mbind M_bind bind mret M_ret ret randomPort
   keygen_call NewServer_call or_Fatalf tb_Fatalf os_Setenv os_Unsetenv act
   FetchURL_call defer tb_Log tb_Error tb_Cleanup ConfigFromEnv_call
   NewClient_call agent_Ready_call init emit with_env time_Sleep
   env trace cleanups listen_calls http_calls ready_calls fst snd non_nil].

Ltac step :=
  match goal with
  | |- context [match net_Listen ?W ?k with _ => _ end] =>
      destruct (net_Listen W k) as [?err|?p] eqn:?Hlisten
  | |- context [match keygen_NewWithWrite ?W ?p with _ => _ end] =>
      destruct (keygen_NewWithWrite W p) as [?err|?kp] eqn:?Hkeygen
  | |- context [match server_NewServer ?W ?c with _ => _ end] =>
      destruct (server_NewServer W c) as [?err|] eqn:?Hserver
  | |- context [match client_ConfigFromEnv ?W ?e with _ => _ end] =>
      destruct (client_ConfigFromEnv W e) as [?err|?ccfg] eqn:?Hcfg
  | |- context [match client_NewClient ?W ?c with _ => _ end] =>
      destruct (client_NewClient W c) as [?err|] eqn:?Hclient
  | |- context [FetchURL ?W ?u ?r ?s] =>
      let resp := fresh "resp" in let err := fresh "err" in
      let tprobe := fresh "tprobe" in let n := fresh "n" in
      let Hprobe := fresh "Hprobe" in let Hn := fresh "Hn" in
      let Hresp := fresh "Hresp" in
      destruct (FetchURL_state W u r s)
        as ([resp [err|]] & tprobe & n & -> & Hprobe & Hn & Hresp)
  | |- context [wait_Ready ?W ?f ?s] =>
      let tready := fresh "tready" in let n := fresh "n" in
      let Hready := fresh "Hready" in
      destruct (wait_Ready_state W f s) as (tready & n & Hready & [-> | ->])
  | |- context [bool_decide (0 < length ?l)%nat] =>
      cbn [length]; case_bool_decide; [try lia | try lia]
  end.

Ltac trace_norm := rewrite <- ?app_assoc; cbn [app].

Lemma Setup_no_agent_inv W fuel e0 clients st' :
  SetupTestServerWithAgent (Signer:=Signer) W fuel [] (init e0)
  = (Ret clients, st') ->
  exists p1 p2 p3 kp tprobe k1,
    net_Listen W 0 = inr p1 ∧ net_Listen W 1 = inr p2
    ∧ net_Listen W 2 = inr p3
    ∧ Forall is_probe_event tprobe
    ∧ client_ConfigFromEnv W (core_env W (final_cfg W p1 p2 p3 kp) e0)
      = inr k1
    ∧ clients
      = mkClients None
          (Some (mkClient (overlay k1 (final_cfg W p1 p2 p3 kp)
                                   (clientData W))))
    ∧ trace st'
      = (boot_trace W (final_cfg W p1 p2 p3 kp) ++ tprobe
         ++ [EvLog "server ready!"; EvConfigFromEnv;
             EvNewClient SlotNoAgent
               (overlay k1 (final_cfg W p1 p2 p3 kp) (clientData W));
             EvBodyClose])%list
    ∧ env st' = core_env W (final_cfg W p1 p2 p3 kp) e0
    ∧ cleanups st' = [CleanupServerEnv false].
Proof.
  run. repeat (step; run); try (intros [=]; fail).
  intros [= <- <-].
  eexists _, _, _, _, tprobe, _. split_and!; try eassumption; try reflexivity.
  cbn [trace]. trace_norm. reflexivity.
Qed.

Lemma Setup_agent_inv W fuel (s : Signer) (signers : list Signer) e0
    clients st' :
  SetupTestServerWithAgent W fuel (s :: signers) (init e0)
  = (Ret clients, st') ->
  exists p1 p2 p3 kp tprobe tready k1 k2,
    net_Listen W 0 = inr p1 ∧ net_Listen W 1 = inr p2
    ∧ net_Listen W 2 = inr p3
    ∧ Forall is_probe_event tprobe
    ∧ Forall is_poll_event tready
    ∧ client_ConfigFromEnv W (core_env W (final_cfg W p1 p2 p3 kp) e0)
      = inr k1
    ∧ client_ConfigFromEnv W
        (agent_env W (core_env W (final_cfg W p1 p2 p3 kp) e0))
      = inr k2
    ∧ clients
      = mkClients
          (Some (mkClient
                   (set_agent (overlay k2 (final_cfg W p1 p2 p3 kp)
                                       (clientData W))
                              (agent_Socket W))))
          (Some (mkClient (overlay k1 (final_cfg W p1 p2 p3 kp)
                                   (clientData W))))
    ∧ trace st'
      = (boot_trace W (final_cfg W p1 p2 p3 kp) ++ tprobe
         ++ [EvLog "server ready!";
             EvAgentNew (S (length signers)); EvGoAgentStart]
         ++ tready
         ++ [EvAgentReady true;
             EvLog ("fake ssh agent ready with "
                    ++ pretty (S (length signers)) ++ " keys");
             EvConfigFromEnv;
             EvNewClient SlotNoAgent
               (overlay k1 (final_cfg W p1 p2 p3 kp) (clientData W));
             EvSetenv "CHARM_SSH_AGENT_ADDR" (agent_Socket W);
             EvSetenv "CHARM_USE_SSH_AGENT" "true";
             EvConfigFromEnv;
             EvNewClient SlotFull
               (set_agent (overlay k2 (final_cfg W p1 p2 p3 kp)
                                   (clientData W))
                          (agent_Socket W));
             EvBodyClose])%list
    ∧ env st' = agent_env W (core_env W (final_cfg W p1 p2 p3 kp) e0)
    ∧ cleanups st' = [CleanupServerEnv true; CleanupAgentClose].
Proof.
  run. repeat (step; run); try (intros [=]; fail).
  intros [= <- <-].
  eexists _, _, _, _, tprobe, tready, _, _.
  split_and!; try eassumption; try reflexivity.
  cbn [trace]. trace_norm. reflexivity.
Qed.

(** *** Bookkeeping on traces and environments *)

Lemma setenv_calls_app (t1 t2 : list (@Event Other)) :
  setenv_calls (t1 ++ t2) = (setenv_calls t1 ++ setenv_calls t2)%list.
Proof.
  induction t1 as [|e t1 IH]; [done|].
  destruct e; simpl; by rewrite ?IH.
Qed.

Lemma unsetenv_keys_app (t1 t2 : list (@Event Other)) :
  unsetenv_keys (t1 ++ t2) = (unsetenv_keys t1 ++ unsetenv_keys t2)%list.
Proof.
  induction t1 as [|e t1 IH]; [done|].
  destruct e; simpl; by rewrite ?IH.
Qed.

Lemma setenv_calls_probe (t : list (@Event Other)) :
  Forall is_probe_event t -> setenv_calls t = [].
Proof. induction 1 as [|e t He _ IH]; [done|]. by destruct e. Qed.

Lemma setenv_calls_poll (t : list (@Event Other)) :
  Forall is_poll_event t -> setenv_calls t = [].
Proof. induction 1 as [|e t He _ IH]; [done|]. by destruct e. Qed.

Lemma setenv_calls_elem (t : list (@Event Other)) k v :
  EvSetenv k v ∈ t -> (k, v) ∈ setenv_calls t.
Proof.
  induction t as [|e t IH]; [by intros ?%elem_of_nil|].
  intros [<-|Hin]%elem_of_cons.
  - simpl. apply elem_of_cons. by left.
  - destruct e; simpl; auto. apply elem_of_cons. right. auto.
Qed.

Lemma probe_not_full (t : list (@Event Other)) :
  Forall is_probe_event t -> Forall (fun e => ¬ is_full_NewClient e) t.
Proof.
  intros H. eapply Forall_impl; [exact H|]. intros []; simpl; tauto.
Qed.

Lemma poll_not_full (t : list (@Event Other)) :
  Forall is_poll_event t -> Forall (fun e => ¬ is_full_NewClient e) t.
Proof.
  intros H. eapply Forall_impl; [exact H|]. intros []; simpl; tauto.
Qed.

Lemma lookup_setenv_ne (k k' v : string) (e : gmap string string) :
  k ≠ k' -> setenv k' v e !! k = e !! k.
Proof.
  intros Hne. unfold setenv. destruct (has_nul v); [done|].
  by apply lookup_insert_ne.
Qed.

Lemma lookup_unsetenv_eq (k : string) (e : gmap string string) :
  unsetenv k e !! k = None.
Proof. apply lookup_delete_eq. Qed.

Lemma lookup_unsetenv_ne (k k' : string) (e : gmap string string) :
  k ≠ k' -> unsetenv k' e !! k = e !! k.
Proof. intros Hne. by apply lookup_delete_ne. Qed.

Lemma teardown_app W st (t : list (@Event Other)) :
  trace (tb_runCleanups W st) = (trace st ++ t)%list -> teardown W st = t.
Proof. unfold teardown. intros ->. apply drop_app_length. Qed.

Ltac run_cleanups := cbv beta iota zeta delta
  [tb_runCleanups run_all run_CleanupFn mbind M_bind bind mret M_ret ret
   os_Unsetenv act tb_Error emit with_env
   env trace cleanups listen_calls http_calls ready_calls fst snd].

(** The state after the cleanups of a setup without agent. *)
Lemma runCleanups_no_agent W st :
  cleanups st = [CleanupServerEnv false] ->
  trace (tb_runCleanups W st)
  = (trace st ++ close_report W
     ++ [EvUnsetenv "CHARM_HOST"; EvUnsetenv "CHARM_SSH_PORT";
         EvUnsetenv "CHARM_HTTP_PORT"; EvUnsetenv "CHARM_DATA_DIR"])%list
  ∧ env (tb_runCleanups W st)
    = unsetenv "CHARM_DATA_DIR"
        (unsetenv "CHARM_HTTP_PORT"
           (unsetenv "CHARM_SSH_PORT" (unsetenv "CHARM_HOST" (env st)))).
Proof.
  intros Hc. unfold tb_runCleanups, close_report. rewrite Hc. run_cleanups.
  destruct (server_Close W); split; try reflexivity;
    rewrite <- ?app_assoc; reflexivity.
Qed.

(** The state after the cleanups of a setup with an agent. *)
Lemma runCleanups_agent W st :
  cleanups st = [CleanupServerEnv true; CleanupAgentClose] ->
  trace (tb_runCleanups W st)
  = (trace st ++ close_report W
     ++ [EvUnsetenv "CHARM_HOST"; EvUnsetenv "CHARM_SSH_PORT";
         EvUnsetenv "CHARM_HTTP_PORT"; EvUnsetenv "CHARM_DATA_DIR";
         EvUnsetenv "CHARM_USE_SSH_AGENT";
         EvUnsetenv "CHARM_SSH_AGENT_ADDR"; EvAgentClose])%list
  ∧ env (tb_runCleanups W st)
    = unsetenv "CHARM_SSH_AGENT_ADDR"
        (unsetenv "CHARM_USE_SSH_AGENT"
           (unsetenv "CHARM_DATA_DIR"
              (unsetenv "CHARM_HTTP_PORT"
                 (unsetenv "CHARM_SSH_PORT"
                    (unsetenv "CHARM_HOST" (env st)))))).
Proof.
  intros Hc. unfold tb_runCleanups, close_report. rewrite Hc. run_cleanups.
  destruct (server_Close W); split; try reflexivity;
    rewrite <- ?app_assoc; reflexivity.
Qed.

(** C2, as the code has it: after a setup that returned, the teardown
    runs in this order: the server is closed, a close error being
    reported through [tb.Error] and not fatal; the four core variables
    are unset; then, if an agent was started, its two variables are unset
    and only after that the agent is closed.  The agent is closed last,
    because its cleanup was registered first. *)
Theorem teardown_order W fuel (signers : list Signer) e0 clients st' :
  SetupTestServerWithAgent W fuel signers (init e0) = (Ret clients, st') ->
  teardown W st'
  = (close_report W
     ++ [EvUnsetenv "CHARM_HOST"; EvUnsetenv "CHARM_SSH_PORT";
         EvUnsetenv "CHARM_HTTP_PORT"; EvUnsetenv "CHARM_DATA_DIR"]
     ++ match signers with
        | [] => []
        | _ :: _ => [EvUnsetenv "CHARM_USE_SSH_AGENT";
                     EvUnsetenv "CHARM_SSH_AGENT_ADDR"; EvAgentClose]
        end)%list.
Proof.
  intros Hrun. apply teardown_app. destruct signers as [|s signers].
  - apply Setup_no_agent_inv in Hrun
      as (p1 & p2 & p3 & kp & tprobe & k1 & _ & _ & _ & _ & _ & _ & _ & _ & Hc).
    destruct (runCleanups_no_agent W st' Hc) as [-> _].
    by rewrite app_nil_r.
  - apply Setup_agent_inv in Hrun
      as (p1 & p2 & p3 & kp & tprobe & tready & k1 & k2
          & _ & _ & _ & _ & _ & _ & _ & _ & _ & _ & Hc).
    by destruct (runCleanups_agent W st' Hc) as [-> _].
Qed.

(** C3, as the code has it: right after the server is built from the
    final configuration the harness writes exactly four variables, the
    host, the SSH port, the HTTP port and the client data directory, and
    then starts the server.  The health port goes into the configuration
    and into the probed URL, and into no variable; the only later writes
    are the two agent variables of a setup with an agent. *)
Theorem core_env_written W fuel (signers : list Signer) e0 clients st' :
  SetupTestServerWithAgent W fuel signers (init e0) = (Ret clients, st') ->
  exists p1 p2 p3 kp path rest,
    net_Listen W 0 = inr p1 ∧ net_Listen W 1 = inr p2
    ∧ net_Listen W 2 = inr p3
    ∧ SSHPort (final_cfg W p1 p2 p3 kp) = p1
    ∧ HTTPPort (final_cfg W p1 p2 p3 kp) = p2
    ∧ HealthPort (final_cfg W p1 p2 p3 kp) = p3
    ∧ trace st'
      = ([EvListen; EvListen; EvListen; EvKeygen path;
          EvNewServer (final_cfg W p1 p2 p3 kp);
          EvSetenv "CHARM_HOST" (Host (final_cfg W p1 p2 p3 kp));
          EvSetenv "CHARM_SSH_PORT" (fmt_d p1);
          EvSetenv "CHARM_HTTP_PORT" (fmt_d p2);
          EvSetenv "CHARM_DATA_DIR" (clientData W);
          EvGoServerStart] ++ rest)%list
    ∧ setenv_calls rest
      = match signers with
        | [] => []
        | _ :: _ => [("CHARM_SSH_AGENT_ADDR", agent_Socket W);
                     ("CHARM_USE_SSH_AGENT", "true")]
        end.
Proof.
  intros Hrun. destruct signers as [|s signers].
  - apply Setup_no_agent_inv in Hrun
      as (p1 & p2 & p3 & kp & tprobe & k1
          & H1 & H2 & H3 & Hprobe & _ & _ & Ht & _ & _).
    eexists p1, p2, p3, kp, _, _.
    split_and!; [done|done|done|done|done|done|exact Ht|].
    by rewrite setenv_calls_app, (setenv_calls_probe _ Hprobe).
  - apply Setup_agent_inv in Hrun
      as (p1 & p2 & p3 & kp & tprobe & tready & k1 & k2
          & H1 & H2 & H3 & Hprobe & Hready & _ & _ & _ & Ht & _ & _).
    eexists p1, p2, p3, kp, _, _.
    split_and!; [done|done|done|done|done|done|exact Ht|].
    rewrite !setenv_calls_app, (setenv_calls_probe _ Hprobe),
      (setenv_calls_poll _ Hready).
    reflexivity.
Qed.


Ltac calls_norm :=
  repeat first
    [ progress cbn [setenv_calls app]
    | rewrite setenv_calls_app
    | match goal with
      | H : Forall is_probe_event ?t |- _ => rewrite (setenv_calls_probe t H)
      | H : Forall is_poll_event ?t |- _ => rewrite (setenv_calls_poll t H)
      end ].

Ltac elem_cases H :=
  first [ apply elem_of_nil in H; destruct H
        | apply elem_of_cons in H as [->|H]; [|elem_cases H] ].

(** However a setup without signers ends, the only variables it has
    written are core ones, and the agent variables are as they were. *)
Lemma Setup_no_agent_frame W fuel e0 o st' :
  SetupTestServerWithAgent (Signer:=Signer) W fuel [] (init e0) = (o, st') ->
  (forall kv, kv ∈ setenv_calls (trace st') -> kv.1 ∈ core_vars)
  ∧ (forall k, k ∈ agent_vars -> env st' !! k = e0 !! k)
  ∧ (forall clients, o = Ret clients -> Full clients = None).
Proof.
  match goal with |- _ -> ?C => set (Claim := C) end.
  run. repeat (step; run); intros [= <- <-]; subst Claim; cbn [trace env].
  all: split_and!;
    [ calls_norm; unfold core_vars; intros kv Hin;
      elem_cases Hin; rewrite !elem_of_cons; auto 10
    | intros k Hk; unfold agent_vars in Hk; elem_cases Hk;
      by rewrite ?lookup_setenv_ne by done
    | intros clients' [= <-]; try reflexivity ].
Qed.


Ltac lookup_norm :=
  repeat first
    [ rewrite lookup_unsetenv_eq
    | rewrite lookup_unsetenv_ne by done
    | rewrite lookup_setenv_ne by done ].

(** C4, as the code has it: the cleanup always unsets the four core
    variables, whatever their state; the two agent variables are unset
    only when an agent was started.  After a setup without signers they
    are not touched: they keep the value they had before the setup. *)
Theorem cleanup_unsets W fuel (signers : list Signer) e0 clients st' :
  SetupTestServerWithAgent W fuel signers (init e0) = (Ret clients, st') ->
  unsetenv_keys (teardown W st')
  = (core_vars ++ match signers with [] => [] | _ :: _ => agent_vars end)%list
  ∧ (forall k, k ∈ core_vars -> env (tb_runCleanups W st') !! k = None)
  ∧ (forall k, k ∈ agent_vars ->
               env (tb_runCleanups W st') !! k
               = match signers with [] => e0 !! k | _ :: _ => None end).
Proof.
  intros Hrun. destruct signers as [|s signers].
  - apply Setup_no_agent_inv in Hrun
      as (p1 & p2 & p3 & kp & tprobe & k1
          & _ & _ & _ & _ & _ & _ & _ & He & Hc).
    destruct (runCleanups_no_agent W st' Hc) as [Ht ->].
    rewrite (teardown_app _ _ _ Ht), He. unfold close_report, core_env.
    split_and!.
    + by destruct (server_Close W).
    + intros k Hk. unfold core_vars in Hk. elem_cases Hk; by lookup_norm.
    + intros k Hk. unfold agent_vars in Hk. elem_cases Hk; by lookup_norm.
  - apply Setup_agent_inv in Hrun
      as (p1 & p2 & p3 & kp & tprobe & tready & k1 & k2
          & _ & _ & _ & _ & _ & _ & _ & _ & _ & He & Hc).
    destruct (runCleanups_agent W st' Hc) as [Ht ->].
    rewrite (teardown_app _ _ _ Ht), He. unfold close_report.
    split_and!.
    + by destruct (server_Close W).
    + intros k Hk. unfold core_vars in Hk. elem_cases Hk; by lookup_norm.
    + intros k Hk. unfold agent_vars in Hk. elem_cases Hk; by lookup_norm.
Qed.

(** C7: a setup without signers, however it ends, never calls
    [os.Setenv] on an agent variable and leaves both as they were; when
    it returns, [Full] is nil. *)
Theorem no_signers_no_agent W fuel e0 o st' :
  SetupTestServerWithAgent (Signer:=Signer) W fuel [] (init e0) = (o, st') ->
  (forall clients, o = Ret clients -> Full clients = None)
  ∧ (forall k v, k ∈ agent_vars -> EvSetenv k v ∉ trace st')
  ∧ (forall k, k ∈ agent_vars -> env st' !! k = e0 !! k).
Proof.
  intros Hrun.
  destruct (Setup_no_agent_frame W fuel e0 o st' Hrun)
    as (Hcalls & Henv & Hfull).
  split_and!; [exact Hfull| |exact Henv].
  intros k v Hk Hin. apply setenv_calls_elem, Hcalls in Hin.
  unfold agent_vars in Hk. unfold core_vars in Hin. simpl in Hin.
  elem_cases Hk;
    repeat (apply elem_of_cons in Hin as [Heq|Hin]; [discriminate Heq|]);
    by apply elem_of_nil in Hin.
Qed.

(** C8: when a setup with signers returns, [Full] is a client whose
    configuration has [UseSSHAgent] true and, as agent address, what
    [agt.Socket()] reports; its construction is the only one made for
    [Full], and it comes after a poll of [agt.Ready()] answered true. *)
Theorem Full_built_after_ready W fuel (signers : list Signer) e0
    clients st' :
  signers ≠ [] ->
  SetupTestServerWithAgent W fuel signers (init e0) = (Ret clients, st') ->
  exists full t1 t2 t3,
    Full clients = Some full
    ∧ trace st'
      = (t1 ++ [EvAgentReady true] ++ t2
         ++ [EvNewClient SlotFull (Config full)] ++ t3)%list
    ∧ Forall (fun e => ¬ is_full_NewClient e) (t1 ++ t2 ++ t3)
    ∧ cc_UseSSHAgent (Config full) = true
    ∧ cc_SSHAgentAddr (Config full) = agent_Socket W.
Proof.
  intros Hne Hrun. destruct signers as [|s signers]; [done|].
  apply Setup_agent_inv in Hrun
    as (p1 & p2 & p3 & kp & tprobe & tready & k1 & k2
        & _ & _ & _ & Hprobe & Hready & _ & _ & -> & Ht & _ & _).
  eexists _,
    (boot_trace W (final_cfg W p1 p2 p3 kp) ++ tprobe
     ++ [EvLog "server ready!"; EvAgentNew (S (length signers));
         EvGoAgentStart] ++ tready)%list,
    [_; _; _; _; _; _], [_].
  split_and!; [reflexivity| | |reflexivity|reflexivity].
  - rewrite Ht. rewrite <- !app_assoc. reflexivity.
  - rewrite !Forall_app. split_and!.
    + unfold boot_trace. repeat (apply Forall_cons_2; [simpl; tauto|]).
      apply Forall_nil_2.
    + by apply probe_not_full.
    + repeat (apply Forall_cons_2; [simpl; tauto|]). apply Forall_nil_2.
    + by apply poll_not_full.
    + repeat (apply Forall_cons_2; [simpl; tauto|]). apply Forall_nil_2.
    + repeat (apply Forall_cons_2; [simpl; tauto|]). apply Forall_nil_2.
Qed.

(** C9: when both clients are built, their configurations carry the same
    host, SSH port, HTTP port and data directory, those of the one server
    configuration and the shared client data path.  Of the fields the
    harness assigns, only the agent flag and the agent address can
    differ; the fields it never assigns are as [client.ConfigFromEnv]
    read them, so that, when that reading does not depend on the agent
    variables, [Full]'s configuration is [NoAgent]'s with the agent flag
    and address replaced. *)
Theorem clients_agree W fuel (signers : list Signer) e0 clients st'
    noagent full :
  SetupTestServerWithAgent W fuel signers (init e0) = (Ret clients, st') ->
  NoAgent clients = Some noagent ->
  Full clients = Some full ->
  (exists cfg,
      EvNewServer cfg ∈ trace st'
      ∧ cc_Host (Config noagent) = Host cfg
      ∧ cc_SSHPort (Config noagent) = SSHPort cfg
      ∧ cc_HTTPPort (Config noagent) = HTTPPort cfg
      ∧ cc_DataDir (Config noagent) = clientData W)
  ∧ cc_Host (Config full) = cc_Host (Config noagent)
  ∧ cc_SSHPort (Config full) = cc_SSHPort (Config noagent)
  ∧ cc_HTTPPort (Config full) = cc_HTTPPort (Config noagent)
  ∧ cc_DataDir (Config full) = cc_DataDir (Config noagent)
  ∧ (ConfigFromEnv_frame W ->
     Config full = set_agent (Config noagent) (agent_Socket W)).
Proof.
  intros Hrun Hn Hf. destruct signers as [|s signers].
  - apply Setup_no_agent_inv in Hrun
      as (p1 & p2 & p3 & kp & tprobe & k1
          & _ & _ & _ & _ & _ & -> & _).
    discriminate Hf.
  - apply Setup_agent_inv in Hrun
      as (p1 & p2 & p3 & kp & tprobe & tready & k1 & k2
          & _ & _ & _ & _ & _ & Hk1 & Hk2 & -> & Ht & _ & _).
    injection Hn as <-. injection Hf as <-.
    split_and!; try reflexivity.
    + exists (final_cfg W p1 p2 p3 kp). split_and!; try reflexivity.
      rewrite Ht. unfold boot_trace. set_solver.
    + intros Hframe. cbn [Config]. unfold set_agent, overlay. simpl.
      by rewrite (Hframe _ _ _ Hk1 Hk2).
Qed.

(** The readiness loop comes back once the flag is seen true, given the
    fuel to reach that poll. *)
Lemma wait_Ready_returns W fuel st (k : nat) :
  agent_Ready W (ready_calls st + k) = true ->
  (k < fuel)%nat ->
  exists st', wait_Ready W fuel st = (Ret tt, st').
Proof.
  revert st k. induction fuel as [|fuel IH]; intros st k Hk Hlt; [lia|].
  simpl. unfold agent_Ready_call.
  destruct (agent_Ready W (ready_calls st)) eqn:Hnow; [by eexists|].
  destruct k as [|k]; [rewrite Nat.add_0_r in Hk; congruence|].
  apply (IH _ k); [|lia]. simpl. rewrite <- Hk. f_equal. lia.
Qed.

(** With collaborators that cooperate the setup returns: the ports, the
    keys, the server and the clients are obtained, the health endpoint
    answers 200 within the three retries, and, when there are signers, the
    agent is seen ready within the fuel. *)
Lemma Setup_returns W fuel (signers : list Signer) e0
    p1 p2 p3 kp (n k : nat) resp :
  net_Listen W 0 = inr p1 ->
  net_Listen W 1 = inr p2 ->
  net_Listen W 2 = inr p3 ->
  keygen_NewWithWrite W
    (filepath_Join W (filepath_Join W (tb_TempDir W) ".ssh") "charm_server")
  = inr kp ->
  server_NewServer W (final_cfg W p1 p2 p3 kp) = None ->
  (n <= 3)%nat ->
  (forall j, (j < n)%nat ->
     exists err, http_Get W ("http://localhost:" ++ fmt_d p3) j = inl err) ->
  http_Get W ("http://localhost:" ++ fmt_d p3) n = inr resp ->
  StatusCode resp = 200 ->
  (forall e, exists c, client_ConfigFromEnv W e = inr c) ->
  (forall c, client_NewClient W c = None) ->
  (signers ≠ [] -> agent_Ready W k = true ∧ (k < fuel)%nat) ->
  exists clients st',
    SetupTestServerWithAgent W fuel signers (init e0) = (Ret clients, st').
Proof.
  intros H1 H2 H3 Hkp Hsrv Hn Hfail Hget Hok Hcfg Hcl Hagent.
  unfold final_cfg in Hsrv.
  run. rewrite H1. run. rewrite H2. run. rewrite H3. run.
  rewrite Hkp. run. rewrite Hsrv. run.
  match goal with |- context [FetchURL W ?u ?r ?s] =>
    change u with ("http://localhost:" ++ fmt_d p3);
    assert (Hres : (FetchURL W ("http://localhost:" ++ fmt_d p3) r s).1
                   = (Some resp, None));
    [ rewrite (FetchURL_skip_failures W _ n) by first [lia | exact Hfail];
      rewrite FetchURL_eq, after_failures_calls; cbn [http_calls Nat.add];
      rewrite Hget; destruct (decide (StatusCode resp ≠ 200)); done
    | destruct (FetchURL_state W ("http://localhost:" ++ fmt_d p3) r s)
        as (res & tprobe & m & Heq & _); rewrite Heq in Hres |- *;
      simpl in Hres; subst res ]
  end.
  run.
  destruct signers as [|s signers]; cbn [length]; case_bool_decide;
    try lia; run.
  - match goal with |- context [client_ConfigFromEnv W ?e] =>
      destruct (Hcfg e) as [c ->] end.
    run. rewrite Hcl. run. by eexists _, _.
  - destruct (Hagent ltac:(done)) as [Hready Hfuel].
    match goal with |- context [wait_Ready W fuel ?s0] =>
      destruct (wait_Ready_returns W fuel s0 k Hready Hfuel) as [st1 Hst1];
      destruct (wait_Ready_state W fuel s0)
        as (tready & m' & _ & [Heq'|Heq']);
      rewrite Heq' in Hst1 |- *; [clear Hst1|discriminate Hst1]
    end.
    run.
    match goal with |- context [client_ConfigFromEnv W ?e] =>
      destruct (Hcfg e) as [c ->] end.
    run. rewrite Hcl. run.
    match goal with |- context [client_ConfigFromEnv W ?e] =>
      destruct (Hcfg e) as [c' ->] end.
    run. rewrite Hcl. run. by eexists _, _.
Qed.

End SetupFacts.

(** The harness in the concrete world. *)

Lemma teardown_order_witness :
  teardown Demo.healthy Demo.with_agent.2
  = (close_report Demo.healthy
     ++ [EvUnsetenv "CHARM_HOST"; EvUnsetenv "CHARM_SSH_PORT";
         EvUnsetenv "CHARM_HTTP_PORT"; EvUnsetenv "CHARM_DATA_DIR"]
     ++ [EvUnsetenv "CHARM_USE_SSH_AGENT";
         EvUnsetenv "CHARM_SSH_AGENT_ADDR"; EvAgentClose])%list.
Proof.
  assert (Hrun : SetupTestServerWithAgent Demo.healthy 5 [tt] (init ∅)
                 = (Ret (Demo.clients_of Demo.with_agent), Demo.with_agent.2))
    by (vm_compute; reflexivity).
  revert Hrun.
  generalize (Demo.clients_of Demo.with_agent), (Demo.with_agent.2).
  intros clients st' Hrun.
  exact (teardown_order Demo.healthy 5 [tt] ∅ clients st' Hrun).
Defined.

(** C2, as stated, fails: with an agent started, the teardown unsets the
    agent variables first and closes the agent last, not the other way
    round. *)
Lemma teardown_order_counterexample :
  Demo.with_agent.1 = Ret (Demo.clients_of Demo.with_agent)
  ∧ teardown Demo.healthy Demo.with_agent.2
    = [EvServerClose;
       EvUnsetenv "CHARM_HOST"; EvUnsetenv "CHARM_SSH_PORT";
       EvUnsetenv "CHARM_HTTP_PORT"; EvUnsetenv "CHARM_DATA_DIR";
       EvUnsetenv "CHARM_USE_SSH_AGENT"; EvUnsetenv "CHARM_SSH_AGENT_ADDR";
       EvAgentClose]
  ∧ teardown Demo.healthy Demo.with_agent.2
    ≠ [EvServerClose;
       EvUnsetenv "CHARM_HOST"; EvUnsetenv "CHARM_SSH_PORT";
       EvUnsetenv "CHARM_HTTP_PORT"; EvUnsetenv "CHARM_DATA_DIR";
       EvAgentClose;
       EvUnsetenv "CHARM_USE_SSH_AGENT"; EvUnsetenv "CHARM_SSH_AGENT_ADDR"].
Proof.
  split_and!; [vm_compute; reflexivity | vm_compute; reflexivity |].
  intros Heq. vm_compute in Heq. discriminate Heq.
Qed.

Lemma core_env_written_witness :
  SetupTestServerWithAgent (Signer:=unit) Demo.healthy 0 [] (init ∅)
  = (Ret (Demo.clients_of Demo.no_agent), Demo.no_agent.2)
  ∧ exists p1 p2 p3 kp path rest,
      net_Listen Demo.healthy 0 = inr p1
      ∧ net_Listen Demo.healthy 1 = inr p2
      ∧ net_Listen Demo.healthy 2 = inr p3
      ∧ SSHPort (final_cfg Demo.healthy p1 p2 p3 kp) = p1
      ∧ HTTPPort (final_cfg Demo.healthy p1 p2 p3 kp) = p2
      ∧ HealthPort (final_cfg Demo.healthy p1 p2 p3 kp) = p3
      ∧ trace Demo.no_agent.2
        = ([EvListen; EvListen; EvListen; EvKeygen path;
            EvNewServer (final_cfg Demo.healthy p1 p2 p3 kp);
            EvSetenv "CHARM_HOST"
                     (Host (final_cfg Demo.healthy p1 p2 p3 kp));
            EvSetenv "CHARM_SSH_PORT" (fmt_d p1);
            EvSetenv "CHARM_HTTP_PORT" (fmt_d p2);
            EvSetenv "CHARM_DATA_DIR" (clientData Demo.healthy);
            EvGoServerStart] ++ rest)%list
      ∧ setenv_calls rest = [].
Proof.
  assert (Hrun : SetupTestServerWithAgent (Signer:=unit) Demo.healthy 0 []
                   (init ∅)
                 = (Ret (Demo.clients_of Demo.no_agent), Demo.no_agent.2))
    by (vm_compute; reflexivity).
  split; [exact Hrun|]. revert Hrun.
  generalize (Demo.clients_of Demo.no_agent), (Demo.no_agent.2).
  intros clients st' Hrun.
  exact (core_env_written Demo.healthy 0 (@nil unit) ∅ clients st' Hrun).
Defined.

(** C3, as stated, fails: the harness writes four variables, not five;
    the health port, 40002 here, is written to none. *)
Lemma core_env_written_counterexample :
  Demo.no_agent.1 = Ret (Demo.clients_of Demo.no_agent)
  ∧ EvNewServer (mkServerConfig "localhost" 40000 40001 40002
                                "/tmp/t/.data" "pub" "priv")
    ∈ trace Demo.no_agent.2
  ∧ setenv_calls (trace Demo.no_agent.2)
    = [("CHARM_HOST", "localhost"); ("CHARM_SSH_PORT", "40000");
       ("CHARM_HTTP_PORT", "40001");
       ("CHARM_DATA_DIR", "/tmp/t/.client-data")]
  ∧ length (setenv_calls (trace Demo.no_agent.2)) ≠ 5%nat.
Proof.
  split_and!; [vm_compute; reflexivity | | vm_compute; reflexivity
              | vm_compute; lia].
  apply list_elem_of_lookup. exists 4%nat. vm_compute. reflexivity.
Qed.

Lemma cleanup_unsets_witness :
  SetupTestServerWithAgent Demo.healthy 5 [tt] (init ∅)
  = (Ret (Demo.clients_of Demo.with_agent), Demo.with_agent.2)
  ∧ unsetenv_keys (teardown Demo.healthy Demo.with_agent.2)
    = (core_vars ++ agent_vars)%list
  ∧ (forall k, k ∈ core_vars ->
               env (tb_runCleanups Demo.healthy Demo.with_agent.2) !! k = None)
  ∧ (forall k, k ∈ agent_vars ->
               env (tb_runCleanups Demo.healthy Demo.with_agent.2) !! k = None).
Proof.
  assert (Hrun : SetupTestServerWithAgent Demo.healthy 5 [tt] (init ∅)
                 = (Ret (Demo.clients_of Demo.with_agent), Demo.with_agent.2))
    by (vm_compute; reflexivity).
  split; [exact Hrun|]. revert Hrun.
  generalize (Demo.clients_of Demo.with_agent), (Demo.with_agent.2).
  intros clients st' Hrun.
  exact (cleanup_unsets Demo.healthy 5 [tt] ∅ clients st' Hrun).
Defined.

(** C4, as stated, fails: after a setup without signers in an environment
    that names an agent, the cleanup unsets the four core variables only;
    both agent variables are still set. *)
Lemma cleanup_unsets_counterexample :
  Demo.no_agent_ambient.1 = Ret (Demo.clients_of Demo.no_agent_ambient)
  ∧ unsetenv_keys (teardown Demo.healthy Demo.no_agent_ambient.2)
    = ["CHARM_HOST"; "CHARM_SSH_PORT"; "CHARM_HTTP_PORT"; "CHARM_DATA_DIR"]
  ∧ env (tb_runCleanups Demo.healthy Demo.no_agent_ambient.2)
      !! "CHARM_USE_SSH_AGENT" = Some "true"
  ∧ env (tb_runCleanups Demo.healthy Demo.no_agent_ambient.2)
      !! "CHARM_SSH_AGENT_ADDR" = Some "/run/ssh-agent.sock".
Proof. split_and!; vm_compute; reflexivity. Qed.

Lemma no_signers_no_agent_witness :
  SetupTestServerWithAgent (Signer:=unit) Demo.healthy 0 [] (init ∅)
  = (Ret (Demo.clients_of Demo.no_agent), Demo.no_agent.2)
  ∧ Full (Demo.clients_of Demo.no_agent) = None
  ∧ (forall k v, k ∈ agent_vars -> EvSetenv k v ∉ trace Demo.no_agent.2)
  ∧ (forall k, k ∈ agent_vars ->
               env Demo.no_agent.2 !! k = (∅ : gmap string string) !! k).
Proof.
  assert (Hrun : SetupTestServerWithAgent (Signer:=unit) Demo.healthy 0 []
                   (init ∅)
                 = (Ret (Demo.clients_of Demo.no_agent), Demo.no_agent.2))
    by (vm_compute; reflexivity).
  split; [exact Hrun|]. revert Hrun.
  generalize (Demo.clients_of Demo.no_agent), (Demo.no_agent.2).
  intros clients st' Hrun.
  destruct (no_signers_no_agent (Signer:=unit) Demo.healthy 0 ∅ _ st' Hrun)
    as (Hfull & Hcalls & Henv).
  split_and!; [exact (Hfull clients eq_refl)|exact Hcalls|exact Henv].
Defined.

Lemma Full_built_after_ready_witness :
  SetupTestServerWithAgent Demo.healthy 5 [tt] (init ∅)
  = (Ret (Demo.clients_of Demo.with_agent), Demo.with_agent.2)
  ∧ exists full t1 t2 t3,
      Full (Demo.clients_of Demo.with_agent) = Some full
      ∧ trace Demo.with_agent.2
        = (t1 ++ [EvAgentReady true] ++ t2
           ++ [EvNewClient SlotFull (Config full)] ++ t3)%list
      ∧ Forall (fun e => ¬ is_full_NewClient e) (t1 ++ t2 ++ t3)
      ∧ cc_UseSSHAgent (Config full) = true
      ∧ cc_SSHAgentAddr (Config full) = "/tmp/agent.sock".
Proof.
  assert (Hrun : SetupTestServerWithAgent Demo.healthy 5 [tt] (init ∅)
                 = (Ret (Demo.clients_of Demo.with_agent), Demo.with_agent.2))
    by (vm_compute; reflexivity).
  split; [exact Hrun|]. revert Hrun.
  generalize (Demo.clients_of Demo.with_agent), (Demo.with_agent.2).
  intros clients st' Hrun.
  exact (Full_built_after_ready Demo.healthy 5 [tt] ∅ clients st'
           ltac:(discriminate) Hrun).
Defined.

Lemma clients_agree_witness :
  SetupTestServerWithAgent Demo.healthy 5 [tt] (init ∅)
  = (Ret (Demo.clients_of Demo.with_agent), Demo.with_agent.2)
  ∧ NoAgent (Demo.clients_of Demo.with_agent)
    = Some (mkClient (mkClientConfig "localhost" 40000 40001
                        "/tmp/t/.client-data" false "" tt))
  ∧ Full (Demo.clients_of Demo.with_agent)
    = Some (mkClient (mkClientConfig "localhost" 40000 40001
                        "/tmp/t/.client-data" true "/tmp/agent.sock" tt))
  ∧ mkClientConfig "localhost" 40000 40001
      "/tmp/t/.client-data" true "/tmp/agent.sock" tt
    = set_agent (mkClientConfig "localhost" 40000 40001
                   "/tmp/t/.client-data" false "" tt)
                "/tmp/agent.sock".
Proof.
  assert (Hrun : SetupTestServerWithAgent Demo.healthy 5 [tt] (init ∅)
                 = (Ret (Demo.clients_of Demo.with_agent), Demo.with_agent.2))
    by (vm_compute; reflexivity).
  assert (Hn : NoAgent (Demo.clients_of Demo.with_agent)
               = Some (mkClient (mkClientConfig "localhost" 40000 40001
                                   "/tmp/t/.client-data" false "" tt)))
    by (vm_compute; reflexivity).
  assert (Hf : Full (Demo.clients_of Demo.with_agent)
               = Some (mkClient (mkClientConfig "localhost" 40000 40001
                                   "/tmp/t/.client-data" true
                                   "/tmp/agent.sock" tt)))
    by (vm_compute; reflexivity).
  split_and!; [exact Hrun|exact Hn|exact Hf|].
  revert Hrun Hn Hf.
  generalize (Demo.clients_of Demo.with_agent), (Demo.with_agent.2).
  intros clients st' Hrun Hn Hf.
  destruct (clients_agree Demo.healthy 5 [tt] ∅ clients st' _ _ Hrun Hn Hf)
    as (_ & _ & _ & _ & _ & Hframe).
  apply Hframe. intros e k1 k2 _ _. by destruct (cc_other k1), (cc_other k2).
Defined.

(** ** More on the readiness probe *)

Section ProbeMore.
Context {Other : Type}.
Implicit Types (W : @Collab Other) (st : @State Other).

(** What [FetchURL] does, in one statement: it goes through [k] failed
    rounds, [k] within the budget, and ends on the request after them,
    either because that request was answered or because the budget is
    used up. *)
Lemma FetchURL_shape W url retries st :
  exists k : nat,
    Z.of_nat k <= Z.max retries 0
    ∧ (forall j, (j < k)%nat ->
         exists err, http_Get W url (http_calls st + j) = inl err)
    ∧ FetchURL W url retries st
      = (match http_Get W url (http_calls st + k) with
         | inl err => (None, Some err)
         | inr resp =>
             (Some resp,
              if decide (StatusCode resp ≠ 200)
              then Some ("bad http status code: " ++ fmt_d (StatusCode resp))
              else None)
         end,
         got url (after_failures url k st))
    ∧ (forall err, http_Get W url (http_calls st + k) = inl err ->
                   Z.of_nat k = Z.max retries 0).
Proof.
  remember (Z.to_nat retries) as m eqn:Hm.
  revert retries st Hm. induction m as [|m IH]; intros retries st Hm.
  - exists 0%nat. rewrite Nat.add_0_r, FetchURL_eq. simpl after_failures.
    split_and!; [lia|intros j Hj; lia| |intros; lia].
    destruct (http_Get W url (http_calls st)) as [err|resp].
    + by destruct (decide (retries > 0)); [lia|].
    + by destruct (decide (StatusCode resp ≠ 200)).
  - destruct (http_Get W url (http_calls st)) as [err|resp] eqn:Hget.
    + destruct (IH (retries - 1) (time_Sleep time_Second (got url st)))
        as (k & Hk & Hfail & Heq & Hlast); [lia|].
      simpl http_calls in Hfail, Heq, Hlast.
      exists (S k).
      replace (http_calls st + S k)%nat with (S (http_calls st) + k)%nat
        by lia.
      split_and!.
      * lia.
      * intros [|j] Hj; [rewrite Nat.add_0_r; eauto|].
        destruct (Hfail j) as [e He]; [lia|]. exists e. rewrite <- He.
        f_equal. lia.
      * rewrite FetchURL_eq, Hget.
        destruct (decide (retries > 0)); [|lia]. exact Heq.
      * intros e He. specialize (Hlast e He). lia.
    + exists 0%nat. rewrite Nat.add_0_r, FetchURL_eq, Hget.
      simpl after_failures.
      split_and!; [lia|intros j Hj; lia| |intros; congruence].
      by destruct (decide (StatusCode resp ≠ 200)).
Qed.

(** X1: the two results of [FetchURL] go together in three ways only: a
    response with status 200 and a nil error; a response with another
    status and the "bad http status code" error for that status; a nil
    response and a transport error.  A nil error therefore always comes
    with a response to close. *)
Theorem FetchURL_result_shape W url retries st resp err st' :
  FetchURL W url retries st = ((resp, err), st') ->
  (err = None -> exists rp, resp = Some rp ∧ StatusCode rp = 200)
  ∧ (resp = None -> exists e, err = Some e)
  ∧ (forall rp e, resp = Some rp -> err = Some e ->
       StatusCode rp ≠ 200
       ∧ e = "bad http status code: " ++ fmt_d (StatusCode rp)).
Proof.
  destruct (FetchURL_shape W url retries st) as (k & _ & _ & -> & _).
  destruct (http_Get W url (http_calls st + k)) as [e|rp].
  - intros [= <- <- <-]. split_and!; [done|eauto|done].
  - destruct (decide (StatusCode rp ≠ 200)) as [Hbad|Hok];
      intros [= <- <- <-]; split_and!; try done.
    + intros rp' e [= <-] [= <-]. done.
    + intros _. exists rp. split; [done|].
      destruct (decide (StatusCode rp = 200)); [done|contradiction].
Qed.

(** X2: whatever the endpoint does, [FetchURL] writes [k] rounds of one
    request and a one-second sleep, [k] at most the budget, and then one
    last request, all to the same URL: one sleep fewer than requests, and
    no sleep after the last request.  It leaves the environment and the
    registered cleanups as they were. *)
Theorem FetchURL_trace_shape W url retries st :
  exists k : nat,
    Z.of_nat k <= Z.max retries 0
    ∧ trace (FetchURL W url retries st).2
      = (trace st ++ failed_rounds url k ++ [EvHttpGet url])%list
    ∧ attempts (failed_rounds (Other:=Other) url k ++ [EvHttpGet url]) = S k
    ∧ sleeps (failed_rounds (Other:=Other) url k ++ [EvHttpGet url]) = k
    ∧ http_calls (FetchURL W url retries st).2 = (http_calls st + S k)%nat
    ∧ env (FetchURL W url retries st).2 = env st
    ∧ cleanups (FetchURL W url retries st).2 = cleanups st.
Proof.
  destruct (FetchURL_shape W url retries st) as (k & Hk & _ & -> & _).
  exists k. cbn [snd].
  destruct (after_failures_frame url k st) as (He & Hc & _ & _).
  destruct (failed_rounds_count (Other:=Other) url k) as [Ha Hs].
  split_and!.
  - exact Hk.
  - simpl. rewrite after_failures_trace. by rewrite <- app_assoc.
  - rewrite attempts_app, Ha. simpl. lia.
  - rewrite sleeps_app, Hs. simpl. lia.
  - simpl. rewrite after_failures_calls. lia.
  - exact He.
  - exact Hc.
Qed.

(** X3: the first response ends the probe, whatever its status: after
    [N - 1] transport errors within the budget, the answer to the [N]-th
    request is handed back after exactly [N] requests, with a nil error
    when its status is 200 and the bad-status error otherwise. *)
Theorem FetchURL_first_response W url retries st (N : nat) resp :
  (1 <= N)%nat ->
  Z.of_nat N <= retries + 1 ->
  (forall k, (k < N - 1)%nat ->
             exists err, http_Get W url (http_calls st + k) = inl err) ->
  http_Get W url (http_calls st + (N - 1)) = inr resp ->
  exists st',
    FetchURL W url retries st
    = ((Some resp,
        if decide (StatusCode resp ≠ 200)
        then Some ("bad http status code: " ++ fmt_d (StatusCode resp))
        else None), st')
    ∧ http_calls st' = (http_calls st + N)%nat
    ∧ sleeps (trace st') = (sleeps (trace st) + (N - 1))%nat.
Proof.
  intros HN Hle Hfail Hget.
  rewrite (FetchURL_skip_failures W url (N - 1)); [|lia|done].
  rewrite FetchURL_eq, after_failures_calls, Hget.
  destruct (failed_rounds_count (Other:=Other) url (N - 1)) as [_ Hs].
  destruct (decide (StatusCode resp ≠ 200));
    (eexists; split_and!; [reflexivity|..]; simpl;
     [ rewrite after_failures_calls; lia
     | rewrite after_failures_trace, !sleeps_app, Hs; simpl; lia ]).
Qed.

(** X4: a larger budget does not change a probe that got a response: when
    [FetchURL] hands back a response with budget [retries], it hands back
    the same results and ends in the same state with any larger budget. *)
Theorem FetchURL_budget_monotone W url retries retries' st resp err st' :
  FetchURL W url retries st = ((Some resp, err), st') ->
  retries <= retries' ->
  FetchURL W url retries' st = ((Some resp, err), st').
Proof.
  intros Hrun Hle.
  destruct (FetchURL_shape W url retries st) as (k & Hk & Hfail & Heq & _).
  rewrite Heq in Hrun.
  assert (Hskip : FetchURL W url retries' st
                  = FetchURL W url (retries' - Z.of_nat k)
                      (after_failures url k st)).
  { destruct k as [|k]; [simpl; by rewrite Z.sub_0_r|].
    apply FetchURL_skip_failures; [lia|done]. }
  rewrite Hskip, FetchURL_eq, after_failures_calls.
  destruct (http_Get W url (http_calls st + k)) as [e|rp]; [done|].
  injection Hrun as <- <- <-.
  by destruct (decide (StatusCode rp ≠ 200)).
Qed.

End ProbeMore.

(** ** The port of a listener address *)

Lemma LastIndex_colon_free (s : string) (i last : Z) :
  has_colon s = false -> LastIndex_colon_from s i last = last.
Proof.
  revert i last. induction s as [|c s IH]; intros i last Hs; [done|].
  simpl in *. destruct (Ascii.eqb c colon); [done|]. by apply IH.
Qed.

Lemma LastIndex_colon_split (h p : string) (i last : Z) :
  has_colon p = false ->
  LastIndex_colon_from (h ++ String colon p) i last
  = i + Z.of_nat (String.length h).
Proof.
  revert i last. induction h as [|c h IH]; intros i last Hp; simpl.
  - rewrite LastIndex_colon_free by done. lia.
  - rewrite IH by done. lia.
Qed.

Lemma string_drop_app_cons (h p : string) (c : Ascii.ascii) :
  string_drop (S (String.length h)) (h ++ String c p) = p.
Proof. induction h as [|c' h IH]; simpl; [by destruct p|done]. Qed.

Lemma string_app_snoc (h p : string) (c : Ascii.ascii) :
  h ++ String c p = (h ++ String c "") ++ p.
Proof.
  induction h as [|c' h IH]; [done|].
  change (String c' (h ++ String c p) = String c' ((h ++ String c "") ++ p)).
  f_equal. exact IH.
Qed.

Lemma string_length_app (h p : string) :
  String.length (h ++ p) = (String.length h + String.length p)%nat.
Proof. induction h as [|c h IH]; simpl; [done|by rewrite IH]. Qed.

(** A string with a colon splits at its last colon. *)
Lemma last_colon_split (s : string) :
  has_colon s = true ->
  exists h p, s = h ++ String colon p ∧ has_colon p = false.
Proof.
  induction s as [|c s IH]; [done|]. simpl.
  destruct (has_colon s) eqn:Hs.
  - intros _. destruct IH as (h & p & -> & Hp); [done|].
    by exists (String c h), p.
  - destruct (Ascii.eqb_spec c colon) as [->|]; [|done].
    intros _. by exists "", s.
Qed.

(** X5: for an address [host:port] whose port part holds no colon, the
    text handed to [strconv.Atoi] is the port part, whatever the host part
    is, colons included (an IPv6 literal). *)
Theorem port_text_host_port (host port : string) :
  has_colon port = false ->
  port_text (host ++ ":" ++ port) = Some port.
Proof.
  intros Hp. unfold port_text, strings_LastIndex_colon, slice_from.
  change (":" ++ port) with (String colon port).
  rewrite LastIndex_colon_split by done.
  rewrite string_length_app. simpl String.length.
  destruct (decide _) as [_|Hn]; [|lia].
  f_equal.
  replace (Z.to_nat (0 + Z.of_nat (String.length host) + 1))
    with (S (String.length host)) by lia.
  apply string_drop_app_cons.
Qed.

(** X6: slicing the address after its last colon never panics: the index
    is always within the string.  The text obtained is a suffix of the
    address with no colon in it, and it is the whole address when the
    address has no colon (the index is then -1 + 1 = 0).  The port
    [randomPort] returns is what [strconv.Atoi] gives for that text, also
    when [strconv.Atoi] reports an error. *)
Theorem port_text_total (addr : string) :
  exists text,
    port_text addr = Some text
    ∧ has_colon text = false
    ∧ (exists h, addr = h ++ text)
    ∧ (has_colon addr = false -> text = addr)
    ∧ (forall Atoi, randomPort_port Atoi addr = Some (Atoi text).1).
Proof.
  assert (H : exists text,
             port_text addr = Some text
             ∧ has_colon text = false
             ∧ (exists h, addr = h ++ text)
             ∧ (has_colon addr = false -> text = addr)).
  { destruct (has_colon addr) eqn:Hc.
    - destruct (last_colon_split addr Hc) as (h & p & -> & Hp).
      exists p. split_and!; [|done| |done].
      + by apply (port_text_host_port h p).
      + exists (h ++ String colon ""). apply string_app_snoc.
    - exists addr. split_and!; [|done|by exists ""|done].
      unfold port_text, strings_LastIndex_colon, slice_from.
      rewrite LastIndex_colon_free by done. simpl.
      destruct (decide _) as [_|Hn]; [done|lia]. }
  destruct H as (text & Ht & Hc & Hs & Hw).
  exists text. split_and!; [done|done|done|done|].
  intros Atoi. unfold randomPort_port. by rewrite Ht.
Qed.

Lemma port_text_host_port_witness :
  port_text ("[::1]" ++ ":" ++ "40123") = Some "40123".
Proof. apply port_text_host_port. reflexivity. Defined.

(** ** More on the setup *)

Section SetupMore.
Context {Other Signer : Type}.
Implicit Types (W : @Collab Other) (st : @State Other).

Lemma got_after_failures url k st :
  got url (after_failures url k st)
  = mkState (env st) (trace st ++ failed_rounds url k ++ [EvHttpGet url])
            (cleanups st) (listen_calls st) (http_calls st + S k)
            (ready_calls st).
Proof.
  unfold got. rewrite after_failures_trace, after_failures_calls.
  destruct (after_failures_frame url k st) as (-> & -> & -> & ->).
  rewrite <- app_assoc. f_equal. lia.
Qed.

(** The probe in full: the rounds it went through and the state it left. *)
Lemma FetchURL_rounds W url retries st :
  exists r (k : nat),
    FetchURL W url retries st
    = (r, mkState (env st)
                  (trace st ++ failed_rounds url k ++ [EvHttpGet url])
                  (cleanups st) (listen_calls st) (http_calls st + S k)
                  (ready_calls st))
    ∧ Z.of_nat k <= Z.max retries 0
    ∧ (r.2 = None -> exists resp, r.1 = Some resp).
Proof.
  destruct (FetchURL_shape W url retries st) as (k & Hk & _ & Heq & _).
  rewrite got_after_failures in Heq. eexists _, k.
  split_and!; [exact Heq|exact Hk|].
  destruct (http_Get W url (http_calls st + k)); simpl; [done|eauto].
Qed.

(** The readiness loop in full: it stops right after the first poll
    answered true, or it uses up its fuel on polls answered false. *)
Lemma wait_Ready_polls W fuel st :
  (exists k : nat,
      (k < fuel)%nat
      ∧ agent_Ready W (ready_calls st + k) = true
      ∧ (forall j, (j < k)%nat -> agent_Ready W (ready_calls st + j) = false)
      ∧ wait_Ready W fuel st
        = (Ret tt,
           mkState (env st)
                   (trace st ++ failed_polls k ++ [EvAgentReady true])
                   (cleanups st) (listen_calls st) (http_calls st)
                   (ready_calls st + S k)))
  ∨ ((forall j, (j < fuel)%nat -> agent_Ready W (ready_calls st + j) = false)
     ∧ wait_Ready W fuel st
       = (Hang,
          mkState (env st) (trace st ++ failed_polls fuel)
                  (cleanups st) (listen_calls st) (http_calls st)
                  (ready_calls st + fuel))).
Proof.
  revert st. induction fuel as [|fuel IH]; intros st.
  - right. split; [intros j Hj; lia|]. simpl.
    rewrite app_nil_r, Nat.add_0_r. by destruct st.
  - simpl. unfold agent_Ready_call.
    destruct (agent_Ready W (ready_calls st)) eqn:Hnow.
    + left. exists 0%nat. rewrite Nat.add_0_r, Nat.add_1_r.
      split_and!; [lia|done|intros j Hj; lia|done].
    + match goal with |- context [wait_Ready W fuel ?s] =>
        destruct (IH s) as [(k & Hk & Hyes & Hno & Heq)|[Hno Heq]] end;
        simpl in Heq, Hno; [simpl in Hyes|];
        rewrite <- !app_assoc in Heq; simpl in Heq.
      * left. exists (S k).
        replace (ready_calls st + S k)%nat with (S (ready_calls st + k))
          by lia.
        split_and!; [lia|done| |].
        -- intros [|j] Hj; [by rewrite Nat.add_0_r|].
           replace (ready_calls st + S j)%nat with (S (ready_calls st + j))
             by lia.
           apply Hno. lia.
        -- rewrite Heq. do 2 f_equal. lia.
      * right. split.
        -- intros [|j] Hj; [by rewrite Nat.add_0_r|].
           replace (ready_calls st + S j)%nat with (S (ready_calls st + j))
             by lia.
           apply Hno. lia.
        -- rewrite Heq. do 2 f_equal. lia.
Qed.

Lemma requests_app (t1 t2 : list (@Event Other)) :
  requests (t1 ++ t2) = (requests t1 ++ requests t2)%list.
Proof.
  induction t1 as [|e t1 IH]; [done|]. destruct e; simpl; by rewrite ?IH.
Qed.

Lemma body_closes_app (t1 t2 : list (@Event Other)) :
  body_closes (t1 ++ t2) = (body_closes t1 + body_closes t2)%nat.
Proof.
  induction t1 as [|e t1 IH]; [done|]. destruct e; simpl; by rewrite ?IH.
Qed.

Lemma ready_logs_app (t1 t2 : list (@Event Other)) :
  ready_logs (t1 ++ t2) = (ready_logs t1 + ready_logs t2)%nat.
Proof.
  induction t1 as [|e t1 IH]; [done|].
  destruct e; simpl; rewrite ?IH; try done. by destruct (String.eqb _ _).
Qed.

Lemma failed_rounds_counts url k :
  requests (failed_rounds (Other:=Other) url k) = replicate k url
  ∧ body_closes (failed_rounds (Other:=Other) url k) = 0%nat
  ∧ ready_logs (failed_rounds (Other:=Other) url k) = 0%nat
  ∧ setenv_calls (failed_rounds (Other:=Other) url k) = []
  ∧ sleeps (failed_rounds (Other:=Other) url k) = k.
Proof.
  induction k as [|k (IH1 & IH2 & IH3 & IH4 & IH5)]; [done|]. simpl.
  by rewrite IH1, IH2, IH3, IH4, IH5.
Qed.

Lemma failed_polls_counts k :
  requests (failed_polls (Other:=Other) k) = []
  ∧ body_closes (failed_polls (Other:=Other) k) = 0%nat
  ∧ ready_logs (failed_polls (Other:=Other) k) = 0%nat
  ∧ setenv_calls (failed_polls (Other:=Other) k) = []
  ∧ sleeps (failed_polls (Other:=Other) k) = k.
Proof.
  induction k as [|k (IH1 & IH2 & IH3 & IH4 & IH5)]; [done|]. simpl.
  by rewrite IH2, IH3, IH5.
Qed.

Lemma agent_log_is_not_ready_log (n : string) :
  String.eqb ("fake ssh agent ready with " ++ n ++ " keys") "server ready!"
  = false.
Proof. reflexivity. Qed.

Ltac run := cbv beta iota zeta delta
  [SetupTestServerWithAgent SetupTestServer
   mbind M_bind bind mret M_ret ret randomPort
   keygen_call NewServer_call or_Fatalf tb_Fatalf os_Setenv os_Unsetenv act
   FetchURL_call defer tb_Log tb_Error tb_Cleanup ConfigFromEnv_call
   NewClient_call agent_Ready_call init emit with_env time_Sleep
   env trace cleanups listen_calls http_calls ready_calls fst snd non_nil].

Ltac step :=
  match goal with
  | |- context [match net_Listen ?W ?k with _ => _ end] =>
      destruct (net_Listen W k) as [?err|?p] eqn:?Hlisten
  | |- context [match keygen_NewWithWrite ?W ?p with _ => _ end] =>
      destruct (keygen_NewWithWrite W p) as [?err|?kp] eqn:?Hkeygen
  | |- context [match server_NewServer ?W ?c with _ => _ end] =>
      destruct (server_NewServer W c) as [?err|] eqn:?Hserver
  | |- context [match client_ConfigFromEnv ?W ?e with _ => _ end] =>
      destruct (client_ConfigFromEnv W e) as [?err|?ccfg] eqn:?Hcfg
  | |- context [match client_NewClient ?W ?c with _ => _ end] =>
      destruct (client_NewClient W c) as [?err|] eqn:?Hclient
  | |- context [FetchURL ?W ?u ?r ?s] =>
      let resp := fresh "resp" in let err := fresh "err" in
      let k := fresh "k" in
      let Hk := fresh "Hk" in let Hresp := fresh "Hresp" in
      destruct (FetchURL_rounds W u r s)
        as ([resp [err|]] & k & -> & Hk & Hresp)
  | |- context [wait_Ready ?W ?f ?s] =>
      let k := fresh "k" in
      let Hlt := fresh "Hlt" in let Hyes := fresh "Hyes" in
      let Hno := fresh "Hno" in
      destruct (wait_Ready_polls W f s)
        as [(k & Hlt & Hyes & Hno & ->)|[Hno ->]]
  | |- context [bool_decide (0 < length ?l)%nat] =>
      cbn [length]; case_bool_decide; [try lia | try lia]
  end.

(** Bring the counts of a trace to numbers. *)
Ltac counts :=
  repeat first
    [ rewrite requests_app | rewrite body_closes_app | rewrite ready_logs_app
    | rewrite setenv_calls_app | rewrite sleeps_app
    | rewrite agent_log_is_not_ready_log
    | rewrite (proj1 (failed_rounds_counts _ _))
    | rewrite (proj1 (proj2 (failed_rounds_counts _ _)))
    | rewrite (proj1 (proj2 (proj2 (failed_rounds_counts _ _))))
    | rewrite (proj1 (proj2 (proj2 (proj2 (failed_rounds_counts _ _)))))
    | rewrite (proj1 (failed_polls_counts _))
    | rewrite (proj1 (proj2 (failed_polls_counts _)))
    | rewrite (proj1 (proj2 (proj2 (failed_polls_counts _))))
    | rewrite (proj1 (proj2 (proj2 (proj2 (failed_polls_counts _)))))
    | progress cbn [requests body_closes ready_logs setenv_calls app
                    String.eqb Ascii.eqb Bool.eqb Nat.add] ].

(** X10: the response body is closed once on every exit, by return or by
    [tb.Fatalf], that follows a successful probe, and never otherwise: not
    on an exit before the probe succeeded, and not when the setup hangs
    waiting for the agent. *)
Theorem Setup_body_closed_once W fuel (signers : list Signer) e0 o st' :
  SetupTestServerWithAgent W fuel signers (init e0) = (o, st') ->
  (ready_logs (trace st') <= 1)%nat
  ∧ body_closes (trace st')
    = match o with Hang => 0%nat | _ => ready_logs (trace st') end.
Proof.
  match goal with |- _ -> ?C => set (Claim := C) end.
  destruct signers as [|s signers].
  all: run; repeat (step; run); intros [= <- <-]; subst Claim; cbn [trace].
  all: counts; split; lia.
Qed.

(** X11: a setup with signers that returns has polled [agt.Ready()] until
    the first answer true and no further: the poll number [k] that answered
    true is within the bound on polls, every poll before it answered false,
    and exactly [k + 1] polls were made. *)
Theorem Setup_returns_after_first_ready W fuel (signers : list Signer) e0
    clients st' :
  SetupTestServerWithAgent W fuel signers (init e0) = (Ret clients, st') ->
  signers ≠ [] ->
  exists k : nat,
    (k < fuel)%nat
    ∧ agent_Ready W k = true
    ∧ (forall j, (j < k)%nat -> agent_Ready W j = false)
    ∧ ready_calls st' = S k.
Proof.
  match goal with |- _ -> ?C => set (Claim := C) end.
  destruct signers as [|s signers].
  all: run; repeat (step; run); try (intros [=]; fail).
  all: intros [= <- <-]; subst Claim; cbn [ready_calls]; intros Hne.
  - done.
  - eexists. split_and!; [eassumption|exact Hyes|exact Hno|done].
Qed.

(** X12: as long as every call on a collaborator comes back, the setup
    can wait for ever in one place only, the loop on [agt.Ready()]: it
    does not end only with signers and with every poll answered false, and
    then the agent's close is the one cleanup registered.  Without signers
    it always ends, by return or by [tb.Fatalf]. *)
Theorem Setup_hangs_only_on_agent W fuel (signers : list Signer) e0 st' :
  SetupTestServerWithAgent W fuel signers (init e0) = (Hang, st') ->
  signers ≠ []
  ∧ (forall j, (j < fuel)%nat -> agent_Ready W j = false)
  ∧ ready_calls st' = fuel
  ∧ cleanups st' = [CleanupAgentClose].
Proof.
  match goal with |- _ -> ?C => set (Claim := C) end.
  destruct signers as [|s signers].
  all: run; repeat (step; run); try (intros [=]; fail).
  intros [= <-]; subst Claim; cbn [ready_calls cleanups].
  split_and!; [done|exact Hno|done|done].
Qed.

(** X14: the health probe of the setup goes to the fixed host [localhost]
    and the health port, never to the host of the configuration: either
    the setup ended before any request, and did not return, or it made
    between one and four requests, all to [http://localhost:<health
    port>], the health port being the answer of the third [randomPort]. *)
Theorem Setup_probe_requests W fuel (signers : list Signer) e0 o st' :
  SetupTestServerWithAgent W fuel signers (init e0) = (o, st') ->
  (requests (trace st') = [] ∧ forall clients, o ≠ Ret clients)
  ∨ exists p3 (k : nat),
      net_Listen W 2 = inr p3
      ∧ (k <= 3)%nat
      ∧ requests (trace st') = replicate (S k) (health_url p3).
Proof.
  match goal with |- _ -> ?C => set (Claim := C) end.
  destruct signers as [|s signers].
  all: run; repeat (step; run); intros [= <- <-]; subst Claim; cbn [trace].
  all: counts; rewrite ?app_nil_r;
    first [ left; split; [reflexivity|intros c [=]]
          | right;
            match goal with
            | |- context [(replicate ?k _ ++ _)%list] =>
                eexists _, k; split_and!;
                [ reflexivity | lia
                | cbn [replicate]; symmetry; apply replicate_cons_app ]
            end ].
Qed.

Lemma not_in_six (k : string) :
  k ∉ (core_vars ++ agent_vars)%list ->
  k ≠ "CHARM_HOST" ∧ k ≠ "CHARM_SSH_PORT" ∧ k ≠ "CHARM_HTTP_PORT"
  ∧ k ≠ "CHARM_DATA_DIR" ∧ k ≠ "CHARM_USE_SSH_AGENT"
  ∧ k ≠ "CHARM_SSH_AGENT_ADDR".
Proof.
  unfold core_vars, agent_vars. cbn [app]. rewrite !not_elem_of_cons. tauto.
Qed.

Ltac run_cleanups := cbv beta iota zeta delta
  [tb_runCleanups run_all run_CleanupFn mbind M_bind bind mret M_ret ret
   os_Unsetenv act tb_Error emit with_env
   env trace cleanups listen_calls http_calls ready_calls fst snd].

Lemma run_all_env_frame W (k : string) (fs : list CleanupFn) st :
  k ∉ (core_vars ++ agent_vars)%list ->
  env (run_all W fs st) !! k = env st !! k.
Proof.
  intros (H1 & H2 & H3 & H4 & H5 & H6)%not_in_six.
  revert st. induction fs as [|f fs IH]; intros st; [done|].
  cbn [run_all]. rewrite IH.
  destruct f as [|[]]; run_cleanups; destruct (server_Close W);
    cbn [env]; by rewrite ?lookup_unsetenv_ne by done.
Qed.

(** X13: the harness touches no environment variable but its six: however
    the setup ends, and again after the registered cleanups have run, every
    other variable has the value it had before. *)
Theorem Setup_env_frame W fuel (signers : list Signer) e0 o st' (k : string) :
  SetupTestServerWithAgent W fuel signers (init e0) = (o, st') ->
  k ∉ (core_vars ++ agent_vars)%list ->
  env st' !! k = e0 !! k
  ∧ env (tb_runCleanups W st') !! k = e0 !! k.
Proof.
  intros Hrun Hk.
  assert (Hsetup : env st' !! k = e0 !! k).
  { pose proof (not_in_six k Hk) as (H1 & H2 & H3 & H4 & H5 & H6).
    revert Hrun.
    match goal with |- _ -> ?C => set (Claim := C) end.
    destruct signers as [|s signers].
    all: run; repeat (step; run); intros [= <- <-]; subst Claim; cbn [env].
    all: by rewrite ?lookup_setenv_ne by done. }
  split; [exact Hsetup|].
  unfold tb_runCleanups. by rewrite run_all_env_frame.
Qed.

Ltac trace_norm := rewrite <- ?app_assoc; cbn [app].

(** X8: when the probe reports an error the setup ends in
    [tb.Fatalf("server likely failed to start: ...")] with the server
    goroutine started and no cleanup registered yet: nothing closes the
    server, and the four core variables, written before the probe, stay
    set when the test ends. *)
Theorem Setup_probe_failure_leaks W fuel (signers : list Signer) e0 msg st' :
  SetupTestServerWithAgent W fuel signers (init e0) = (Fatal msg, st') ->
  (exists err, msg = "server likely failed to start: " ++ err) ->
  EvGoServerStart ∈ trace st'
  ∧ (setenv_calls (trace st')).*1 = core_vars
  ∧ cleanups st' = []
  ∧ teardown W st' = [].
Proof.
  match goal with |- _ -> ?C => set (Claim := C) end.
  destruct signers as [|s signers].
  all: run; repeat (step; run); try (intros [=]; fail).
  all: intros [= <- <-]; subst Claim; cbn [trace cleanups];
    intros [err' Hmsg]; try discriminate Hmsg.
  all: split_and!;
    [ apply list_elem_of_lookup; exists 9%nat; reflexivity
    | trace_norm; counts; reflexivity
    | reflexivity
    | unfold teardown, tb_runCleanups; cbn [cleanups run_all trace];
      apply drop_all ].
Qed.

(** X9: a [tb.Fatalf] at the construction of a client, after the cleanups
    are registered, is torn down like a return: the server is closed, the
    core variables are unset and, with signers, the agent variables are
    unset and the agent is closed. *)
Theorem Setup_late_fatal_teardown W fuel (signers : list Signer) e0 msg st' :
  SetupTestServerWithAgent W fuel signers (init e0) = (Fatal msg, st') ->
  (exists err, msg = "client config from env error: " ++ err
               ∨ msg = "new client error: " ++ err) ->
  teardown W st'
  = (close_report W
     ++ [EvUnsetenv "CHARM_HOST"; EvUnsetenv "CHARM_SSH_PORT";
         EvUnsetenv "CHARM_HTTP_PORT"; EvUnsetenv "CHARM_DATA_DIR"]
     ++ match signers with
        | [] => []
        | _ :: _ => [EvUnsetenv "CHARM_USE_SSH_AGENT";
                     EvUnsetenv "CHARM_SSH_AGENT_ADDR"; EvAgentClose]
        end)%list.
Proof.
  match goal with |- _ -> ?C => set (Claim := C) end.
  destruct signers as [|s signers].
  all: run; repeat (step; run); try (intros [=]; fail).
  all: intros [= <- <-]; subst Claim;
    intros [err' [Hmsg|Hmsg]]; try discriminate Hmsg.
  all: apply teardown_app;
    match goal with
    | |- trace (tb_runCleanups ?w ?s) = _ =>
        first [ exact (proj1 (runCleanups_no_agent w s eq_refl))
              | exact (proj1 (runCleanups_agent w s eq_refl)) ]
    end.
Qed.

(** Without signers the bound on the polls of the agent plays no part. *)
Lemma Setup_no_signers_fuel W fuel fuel' st :
  SetupTestServerWithAgent (Signer:=Signer) W fuel [] st
  = SetupTestServerWithAgent (Signer:=Signer) W fuel' [] st.
Proof.
  destruct st as [e t c l h r].
  run. repeat (step; run); reflexivity.
Qed.

(** X7: when [SetupTestServer] returns, the client is not nil and its
    configuration has the host of the server configuration, the ports of
    the first two [randomPort] calls and the client data directory.  No
    call is made on an agent, neither in the setup nor in the teardown,
    and the result is the same for every bound on the agent polls, which
    are never made. *)
Theorem SetupTestServer_client W fuel e0 c st' :
  SetupTestServer (Signer:=Signer) W fuel (init e0) = (Ret c, st') ->
  (exists cl p1 p2,
      c = Some cl
      ∧ net_Listen W 0 = inr p1 ∧ net_Listen W 1 = inr p2
      ∧ cc_Host (Config cl) = Host (server_DefaultConfig W)
      ∧ cc_SSHPort (Config cl) = p1
      ∧ cc_HTTPPort (Config cl) = p2
      ∧ cc_DataDir (Config cl) = clientData W)
  ∧ Forall (fun e => ¬ is_agent_event e) (trace (tb_runCleanups W st'))
  ∧ forall fuel',
      SetupTestServer (Signer:=Signer) W fuel' (init e0) = (Ret c, st').
Proof.
  intros Hrun.
  assert (Hsetup : exists clients,
             SetupTestServerWithAgent (Signer:=Signer) W fuel [] (init e0)
             = (Ret clients, st') ∧ c = NoAgent clients).
  { unfold SetupTestServer, mbind, M_bind, bind in Hrun.
    destruct (SetupTestServerWithAgent W fuel [] (init e0)) as [[cs| |] s1];
      [|discriminate Hrun|discriminate Hrun].
    injection Hrun as <- <-. by exists cs. }
  destruct Hsetup as (clients & Hsetup & ->).
  split_and!.
  - apply Setup_no_agent_inv in Hsetup
      as (p1 & p2 & p3 & kp & tprobe & k1
          & H1 & H2 & _ & _ & _ & -> & _).
    by eexists _, p1, p2.
  - apply Setup_no_agent_inv in Hsetup
      as (p1 & p2 & p3 & kp & tprobe & k1
          & _ & _ & _ & Hprobe & _ & _ & Ht & _ & Hc).
    destruct (runCleanups_no_agent W st' Hc) as [-> _]. rewrite Ht.
    unfold boot_trace, close_report. rewrite !Forall_app. split_and!.
    + repeat (apply Forall_cons_2; [simpl; tauto|]). apply Forall_nil_2.
    + eapply Forall_impl; [exact Hprobe|]. intros []; simpl; tauto.
    + repeat (apply Forall_cons_2; [simpl; tauto|]). apply Forall_nil_2.
    + destruct (server_Close W);
        repeat (apply Forall_cons_2; [simpl; tauto|]); apply Forall_nil_2.
    + repeat (apply Forall_cons_2; [simpl; tauto|]). apply Forall_nil_2.
  - intros fuel'. unfold SetupTestServer, mbind, M_bind, bind.
    by rewrite (Setup_no_signers_fuel W fuel' fuel), Hsetup.
Qed.

(** X15: [NoAgent] is never nil when the setup returns, and the harness
    does not clear its agent fields: the agent flag and the agent address
    of its configuration, like every field the harness does not assign,
    are what [client.ConfigFromEnv] read from the environment as it stood
    after the four core variables were written. *)
Theorem NoAgent_keeps_env_agent W fuel (signers : list Signer) e0
    clients st' :
  SetupTestServerWithAgent W fuel signers (init e0) = (Ret clients, st') ->
  exists noagent p1 p2 p3 kp read,
    NoAgent clients = Some noagent
    ∧ net_Listen W 0 = inr p1 ∧ net_Listen W 1 = inr p2
    ∧ net_Listen W 2 = inr p3
    ∧ client_ConfigFromEnv W (core_env W (final_cfg W p1 p2 p3 kp) e0)
      = inr read
    ∧ cc_UseSSHAgent (Config noagent) = cc_UseSSHAgent read
    ∧ cc_SSHAgentAddr (Config noagent) = cc_SSHAgentAddr read
    ∧ cc_other (Config noagent) = cc_other read.
Proof.
  intros Hrun. destruct signers as [|s signers].
  - apply Setup_no_agent_inv in Hrun
      as (p1 & p2 & p3 & kp & tprobe & k1
          & H1 & H2 & H3 & _ & Hk1 & -> & _).
    by eexists _, p1, p2, p3, kp, k1.
  - apply Setup_agent_inv in Hrun
      as (p1 & p2 & p3 & kp & tprobe & tready & k1 & k2
          & H1 & H2 & H3 & _ & _ & Hk1 & _ & -> & _).
    by eexists _, p1, p2, p3, kp, k1.
Qed.

End SetupMore.

(** ** [compareKeyLists] *)

Lemma byte_to_N_inj (x y : Byte.byte) : Byte.to_N x = Byte.to_N y -> x = y.
Proof.
  intros H. pose proof (Stdlib.Strings.Byte.of_to_N x) as Hx.
  rewrite H, Stdlib.Strings.Byte.of_to_N in Hx. congruence.
Qed.

Lemma bytes_Compare_zero (a b : list Byte.byte) :
  bytes_Compare a b = 0 <-> a = b.
Proof.
  revert b. induction a as [|x a IH]; intros [|y b]; simpl; try done.
  destruct (N.compare_spec (Byte.to_N x) (Byte.to_N y)) as [Heq|Hlt|Hgt].
  - apply byte_to_N_inj in Heq as ->. rewrite IH. split; congruence.
  - split; [done|]. intros [= -> _]. lia.
  - split; [done|]. intros [= -> _]. lia.
Qed.

Lemma compareKeyLists_from_spec (a b : list (list Byte.byte)) (n i : nat) :
  (i + n)%nat = length a -> length a = length b ->
  exists r, compareKeyLists_from a b i n = Some r
            ∧ (r = true <-> drop i a = drop i b).
Proof.
  revert i. induction n as [|n IH]; intros i Hi Hlen.
  - exists true. split; [done|]. split; [|done]. intros _.
    rewrite !drop_ge by lia. done.
  - simpl.
    destruct (lookup_lt_is_Some_2 a i) as [x Hx]; [lia|].
    destruct (lookup_lt_is_Some_2 b i) as [y Hy]; [lia|].
    rewrite Hx, Hy, (drop_S a x i Hx), (drop_S b y i Hy).
    destruct (decide (bytes_Compare x y ≠ 0)) as [Hne|Heq].
    + exists false. split; [done|]. split; [done|].
      intros [= -> _]. destruct Hne. by apply bytes_Compare_zero.
    + assert (x = y) as ->.
      { apply bytes_Compare_zero.
        destruct (decide (bytes_Compare x y = 0)); [done|contradiction]. }
      destruct (IH (S i)) as (r & -> & Hr); [lia|done|].
      exists r. split; [done|]. rewrite Hr. split; congruence.
Qed.

(** X16: [compareKeyLists] never indexes out of range, the length check
    coming first, and it answers true exactly when the two lists hold the
    same byte strings in the same order; lists of different lengths are
    different without any string being compared. *)
Theorem compareKeyLists_spec (a b : list (list Byte.byte)) :
  (exists r, compareKeyLists a b = Some r)
  ∧ (compareKeyLists a b = Some true <-> a = b)
  ∧ (length a ≠ length b -> compareKeyLists a b = Some false).
Proof.
  unfold compareKeyLists.
  destruct (decide (length a ≠ length b)) as [Hne|Heq].
  - split_and!; [by eexists| |done]. split; [done|]. by intros ->.
  - assert (Hlen : length a = length b)
      by (destruct (decide (length a = length b)); [done|contradiction]).
    destruct (compareKeyLists_from_spec a b (length a) 0) as (r & -> & Hr);
      [lia|done|].
    split_and!; [by eexists| |done].
    rewrite <- Hr. split; congruence.
Qed.

(** ** The key-generation view *)

Section KeygenFacts.
Context {Spinner Tick Sub Foreign : Type}.
Variable spinner_Update : Tick -> Spinner -> Spinner.
Variable spinner_MakeSub : Spinner -> error + Sub.
Variable spinner_New : Spinner.

Local Abbreviation Update :=
  (Keygen.Update (Foreign:=Foreign) spinner_Update).
Local Abbreviation feed := (Keygen.feed (Foreign:=Foreign) spinner_Update).
Local Abbreviation Subscriptions :=
  (Keygen.Subscriptions (Foreign:=Foreign) spinner_MakeSub).

Lemma feed_snoc msgs msg model :
  feed (msgs ++ [msg]) model = (Update msg (feed msgs model)).1.
Proof. unfold Keygen.feed. by rewrite fold_left_app. Qed.

(** X17: [Update] asks the runtime to quit in three cases and no other: a
    key among ctrl+c, esc and q; a failure message; the done message of a
    standalone model. *)
Theorem keygen_quit_iff (msg : Keygen.Msg) (m : Keygen.Model) :
  (Update msg (inl m)).2 = Keygen.tea_Quit
  <-> (exists key, msg = Keygen.KeyMsg key
                   ∧ (key = "ctrl+c" ∨ key = "esc" ∨ key = "q"))
      ∨ (exists err, msg = Keygen.failedMsg err)
      ∨ (msg = Keygen.DoneMsg ∧ Keygen.m_standalone m = true).
Proof.
  destruct msg as [key|err| |tick| |]; simpl.
  - destruct (decide _) as [Hk|Hk]; simpl.
    + split; [|done]. intros _. left. by exists key.
    + split; [done|]. intros [(k & [= <-] & Hq)|[(e & [=])|[[=] _]]].
      contradiction.
  - split; [|done]. intros _. right. left. by exists err.
  - split; [done|]. by intros [(k & [=] & _)|[(e & [=])|[[=] _]]].
  - split; [done|]. by intros [(k & [=] & _)|[(e & [=])|[[=] _]]].
  - destruct (Keygen.m_standalone m); simpl.
    + split; [|done]. intros _. by right; right.
    + split; [done|]. by intros [(k & [=] & _)|[(e & [=])|[_ [=]]]].
  - split; [done|]. by intros [(k & [=] & _)|[(e & [=])|[[=] _]]].
Qed.

Lemma feed_invariant_from (standalone : bool) (msgs : list Keygen.Msg) :
  exists m,
    feed msgs (inl (Keygen.mkModel Keygen.statusRunning None spinner_New
                                   standalone))
    = inl m
    ∧ Keygen.m_standalone m = standalone
    ∧ (Keygen.m_status m = Keygen.statusError ->
       exists err, Keygen.m_err m = Some err)
    ∧ (forall err, Keygen.m_err m = Some err -> Keygen.failedMsg err ∈ msgs)
    ∧ (Keygen.m_status m = Keygen.statusDone -> standalone = false).
Proof.
  induction msgs as [|msg msgs IH] using rev_ind.
  - eexists. split_and!; [reflexivity|done|done|done|done].
  - destruct IH as (m & Hm & Hs & He & Hin & Hd).
    rewrite feed_snoc, Hm.
    destruct msg as [key|err| |tick| |]; simpl;
      try destruct (decide _); try destruct (Keygen.m_standalone m) eqn:Hb;
      simpl; eexists; (split_and!; [reflexivity|..]); simpl; try done;
      try congruence.
    all: try (intros e' He'; apply elem_of_app; left; by apply Hin).
    all: first
      [ by intros _; eexists
      | intros e' [= <-]; apply elem_of_app; right;
        by apply list_elem_of_singleton ].
Qed.

(** X18: along any list of messages, from the model of [NewModel] or from
    the one of [Init], the model stays a model of this package and keeps
    its standalone flag, false from [NewModel] and true from [Init]; in
    [statusError] an error is stored; a stored error is the one of a
    failure message received; and [statusDone] is never reached from
    [Init]. *)
Theorem keygen_feed_invariant (start : Keygen.TeaModel)
    (msgs : list Keygen.Msg) :
  start = inl (Keygen.NewModel spinner_New)
  ∨ start = (Keygen.Init (Foreign:=Foreign) spinner_New).1 ->
  exists m,
    feed msgs start = inl m
    ∧ (start = inl (Keygen.NewModel spinner_New) ->
       Keygen.m_standalone m = false)
    ∧ (start = (Keygen.Init (Foreign:=Foreign) spinner_New).1 ->
       Keygen.m_standalone m = true
       ∧ Keygen.m_status m ≠ Keygen.statusDone)
    ∧ (Keygen.m_status m = Keygen.statusError ->
       exists err, Keygen.m_err m = Some err)
    ∧ (forall err, Keygen.m_err m = Some err -> Keygen.failedMsg err ∈ msgs).
Proof.
  intros [-> | ->].
  - destruct (feed_invariant_from false msgs) as (m & Hm & Hs & He & Hin & _).
    exists m. split_and!; [exact Hm|done| |exact He|exact Hin].
    intros [=].
  - destruct (feed_invariant_from true msgs) as (m & Hm & Hs & He & Hin & Hd).
    exists m. split_and!; [exact Hm| | |exact He|exact Hin].
    + intros [=].
    + intros _. split; [exact Hs|]. intros Hdone. by specialize (Hd Hdone).
Qed.

(** X19: [statusRunning] is never entered again: from a model in another
    status, no list of messages brings it back to running, and
    [Subscriptions] hands out no spinner subscription any more. *)
Theorem keygen_running_not_reentered (m : Keygen.Model)
    (msgs : list Keygen.Msg) :
  Keygen.m_status m ≠ Keygen.statusRunning ->
  exists m',
    feed msgs (inl m) = inl m'
    ∧ Keygen.m_status m' ≠ Keygen.statusRunning
    ∧ Subscriptions (inl m') = None.
Proof.
  intros Hm.
  assert (Hnil : forall m0, Keygen.m_status m0 ≠ Keygen.statusRunning ->
                            Subscriptions (inl m0) = None).
  { intros m0 H0. simpl. destruct (spinner_MakeSub _); [done|].
    by destruct (Keygen.m_status m0). }
  induction msgs as [|msg msgs IH] using rev_ind.
  - exists m. split_and!; [done|done|by apply Hnil].
  - destruct IH as (m1 & Hm1 & Hs & _). rewrite feed_snoc, Hm1.
    destruct msg as [key|err| |tick| |]; simpl;
      try destruct (decide _); try destruct (Keygen.m_standalone m1);
      simpl; eexists; (split_and!; [reflexivity| |apply Hnil]); simpl; done.
Qed.

Lemma feed_ticks (ticks : list Tick) (m : Keygen.Model) :
  exists m',
    feed (Keygen.TickMsg <$> ticks) (inl m) = inl m'
    ∧ Keygen.m_status m' = Keygen.m_status m
    ∧ Keygen.m_err m' = Keygen.m_err m
    ∧ Keygen.m_standalone m' = Keygen.m_standalone m.
Proof.
  induction ticks as [|tick ticks IH] using rev_ind.
  - by exists m.
  - destruct IH as (m1 & Hm1 & Hs & He & Hb).
    rewrite fmap_app. simpl (_ <$> [tick]).
    rewrite feed_snoc, Hm1. simpl. by eexists.
Qed.

(** X20: the way to the end after a success, spinner ticks coming in at
    any point: the success message sets [statusSuccess] and asks for the
    pause; the done message the pause ends with makes a standalone model
    quit, still in [statusSuccess], and sets a model that is not standalone
    to [statusDone] with no command, leaving the quitting to its parent. *)
Theorem keygen_success_then_done (m : Keygen.Model)
    (ticks1 ticks2 : list Tick) :
  exists m1 m2,
    Update Keygen.successMsg (feed (Keygen.TickMsg <$> ticks1) (inl m))
    = (inl m1, Keygen.pause)
    ∧ Keygen.m_status m1 = Keygen.statusSuccess
    ∧ Update (Keygen.pause_msg (Tick:=Tick))
             (feed (Keygen.TickMsg <$> ticks2) (inl m1))
      = (inl m2,
         if Keygen.m_standalone m then Keygen.tea_Quit else Keygen.tea_nil)
    ∧ Keygen.m_status m2
      = (if Keygen.m_standalone m then Keygen.statusSuccess
         else Keygen.statusDone)
    ∧ Keygen.m_err m2 = Keygen.m_err m.
Proof.
  destruct (feed_ticks ticks1 m) as (ma & -> & Hsa & Hea & Hba).
  simpl. eexists.
  destruct (feed_ticks ticks2 (Keygen.set_status ma Keygen.statusSuccess))
    as (mb & -> & Hsb & Heb & Hbb).
  simpl in Hsb, Heb, Hbb. unfold Keygen.pause_msg. simpl.
  rewrite Hbb, Hba.
  destruct (Keygen.m_standalone m); eexists;
    (split_and!; [reflexivity|reflexivity|reflexivity|..]); simpl; congruence.
Qed.

End KeygenFacts.

(** ** The further properties on concrete inputs *)

Lemma FetchURL_result_shape_witness :
  StatusCode (mkResponse 503 "starting") ≠ 200
  ∧ "bad http status code: 503"
    = "bad http status code: " ++ fmt_d (StatusCode (mkResponse 503 "starting")).
Proof.
  assert (Hrun : FetchURL Scenarios.unhealthy "http://localhost:8080" 3
                          (init ∅)
                 = ((Some (mkResponse 503 "starting"),
                     Some "bad http status code: 503"),
                    got "http://localhost:8080" (init ∅)))
    by (vm_compute; reflexivity).
  destruct (FetchURL_result_shape _ _ _ _ _ _ _ Hrun) as (_ & _ & H).
  exact (H _ _ eq_refl eq_refl).
Defined.

Lemma FetchURL_first_response_witness :
  exists st',
    FetchURL (Demo.world Demo.unavailable (Demo.ready_at 0))
             "http://localhost:8080" 3 (init ∅)
    = ((Some (mkResponse 503 "starting"),
        if decide (StatusCode (mkResponse 503 "starting") ≠ 200)
        then Some ("bad http status code: "
                   ++ fmt_d (StatusCode (mkResponse 503 "starting")))
        else None), st')
    ∧ http_calls st' = 1%nat.
Proof.
  destruct (FetchURL_first_response
              (Demo.world Demo.unavailable (Demo.ready_at 0))
              "http://localhost:8080" 3 (init ∅) 1
              (mkResponse 503 "starting"))
    as (st' & Heq & Hcalls & _).
  - lia.
  - lia.
  - intros k Hk. lia.
  - reflexivity.
  - exists st'. split; [exact Heq|exact Hcalls].
Defined.

Lemma FetchURL_budget_monotone_witness :
  FetchURL (Demo.world (Demo.comes_up_after 2) (Demo.ready_at 0))
           "http://localhost:8080" 10 (init ∅)
  = ((Some (mkResponse 200 "ok"), None),
     got "http://localhost:8080"
         (after_failures "http://localhost:8080" 2 (init ∅))).
Proof.
  apply (FetchURL_budget_monotone
           (Demo.world (Demo.comes_up_after 2) (Demo.ready_at 0))
           "http://localhost:8080" 2 10); [|lia].
  vm_compute. reflexivity.
Defined.

Lemma port_text_total_witness :
  exists text,
    port_text "40123" = Some text
    ∧ has_colon text = false
    ∧ text = "40123".
Proof.
  destruct (port_text_total "40123") as (text & Ht & Hc & _ & Hwhole & _).
  exists text. split_and!; [exact Ht|exact Hc|]. apply Hwhole. reflexivity.
Defined.

Lemma SetupTestServer_client_witness :
  exists cl,
    Scenarios.client_of Scenarios.plain = Some cl
    ∧ cc_SSHPort (Config cl) = 40000
    ∧ cc_HTTPPort (Config cl) = 40001.
Proof.
  assert (Hrun : SetupTestServer (Signer:=unit) Demo.healthy 0 (init ∅)
                 = (Ret (Scenarios.client_of Scenarios.plain),
                    Scenarios.plain.2))
    by (vm_compute; reflexivity).
  revert Hrun.
  generalize (Scenarios.client_of Scenarios.plain), (Scenarios.plain.2).
  intros c st' Hrun.
  destruct (SetupTestServer_client (Signer:=unit) Demo.healthy 0 ∅ c st' Hrun)
    as ((cl & p1 & p2 & -> & H1 & H2 & _ & Hs & Hh & _) & _).
  exists cl. split; [reflexivity|].
  vm_compute in H1, H2. injection H1 as <-. injection H2 as <-.
  split; [exact Hs|exact Hh].
Defined.

Lemma Setup_probe_failure_leaks_witness :
  SetupTestServerWithAgent (Signer:=unit) Scenarios.unhealthy 0 [] (init ∅)
  = (Fatal "server likely failed to start: bad http status code: 503",
     Scenarios.probe_fails.2)
  ∧ cleanups Scenarios.probe_fails.2 = []
  ∧ teardown Scenarios.unhealthy Scenarios.probe_fails.2 = [].
Proof.
  assert (Hrun : SetupTestServerWithAgent (Signer:=unit) Scenarios.unhealthy
                   0 [] (init ∅)
                 = (Fatal "server likely failed to start: bad http status code: 503",
                    Scenarios.probe_fails.2))
    by (vm_compute; reflexivity).
  split; [exact Hrun|]. revert Hrun.
  generalize (Scenarios.probe_fails.2). intros st' Hrun.
  destruct (Setup_probe_failure_leaks Scenarios.unhealthy 0 (@nil unit) ∅
              _ st' Hrun) as (_ & _ & Hc & Ht).
  - by exists "bad http status code: 503".
  - split; [exact Hc|exact Ht].
Defined.

Lemma Setup_late_fatal_teardown_witness :
  SetupTestServerWithAgent Scenarios.no_client 5 [tt] (init ∅)
  = (Fatal "new client error: no identity", Scenarios.client_fails.2)
  ∧ teardown Scenarios.no_client Scenarios.client_fails.2
    = (close_report Scenarios.no_client
       ++ [EvUnsetenv "CHARM_HOST"; EvUnsetenv "CHARM_SSH_PORT";
           EvUnsetenv "CHARM_HTTP_PORT"; EvUnsetenv "CHARM_DATA_DIR"]
       ++ [EvUnsetenv "CHARM_USE_SSH_AGENT";
           EvUnsetenv "CHARM_SSH_AGENT_ADDR"; EvAgentClose])%list.
Proof.
  assert (Hrun : SetupTestServerWithAgent Scenarios.no_client 5 [tt] (init ∅)
                 = (Fatal "new client error: no identity",
                    Scenarios.client_fails.2))
    by (vm_compute; reflexivity).
  split; [exact Hrun|]. revert Hrun.
  generalize (Scenarios.client_fails.2). intros st' Hrun.
  apply (Setup_late_fatal_teardown Scenarios.no_client 5 [tt] ∅ _ st' Hrun).
  exists "no identity". by right.
Defined.

Lemma Setup_body_closed_once_witness :
  SetupTestServerWithAgent Scenarios.no_client 5 [tt] (init ∅)
  = (Fatal "new client error: no identity", Scenarios.client_fails.2)
  ∧ (ready_logs (trace Scenarios.client_fails.2) <= 1)%nat
  ∧ body_closes (trace Scenarios.client_fails.2)
    = ready_logs (trace Scenarios.client_fails.2).
Proof.
  assert (Hrun : SetupTestServerWithAgent Scenarios.no_client 5 [tt] (init ∅)
                 = (Fatal "new client error: no identity",
                    Scenarios.client_fails.2))
    by (vm_compute; reflexivity).
  split; [exact Hrun|]. revert Hrun.
  generalize (Scenarios.client_fails.2). intros st' Hrun.
  exact (Setup_body_closed_once Scenarios.no_client 5 [tt] ∅ _ st' Hrun).
Defined.

Lemma Setup_returns_after_first_ready_witness :
  SetupTestServerWithAgent Demo.healthy 5 [tt] (init ∅)
  = (Ret (Demo.clients_of Demo.with_agent), Demo.with_agent.2)
  ∧ exists k : nat,
      (k < 5)%nat
      ∧ agent_Ready Demo.healthy k = true
      ∧ (forall j, (j < k)%nat -> agent_Ready Demo.healthy j = false)
      ∧ ready_calls Demo.with_agent.2 = S k.
Proof.
  assert (Hrun : SetupTestServerWithAgent Demo.healthy 5 [tt] (init ∅)
                 = (Ret (Demo.clients_of Demo.with_agent), Demo.with_agent.2))
    by (vm_compute; reflexivity).
  split; [exact Hrun|]. revert Hrun.
  generalize (Demo.clients_of Demo.with_agent), (Demo.with_agent.2).
  intros clients st' Hrun.
  exact (Setup_returns_after_first_ready Demo.healthy 5 [tt] ∅ clients st'
           Hrun ltac:(discriminate)).
Defined.

Lemma Setup_hangs_only_on_agent_witness :
  SetupTestServerWithAgent Scenarios.deaf_agent 3 [tt] (init ∅)
  = (Hang, Scenarios.agent_hangs.2)
  ∧ ready_calls Scenarios.agent_hangs.2 = 3%nat
  ∧ cleanups Scenarios.agent_hangs.2 = [CleanupAgentClose].
Proof.
  assert (Hrun : SetupTestServerWithAgent Scenarios.deaf_agent 3 [tt] (init ∅)
                 = (Hang, Scenarios.agent_hangs.2))
    by (vm_compute; reflexivity).
  split; [exact Hrun|]. revert Hrun.
  generalize (Scenarios.agent_hangs.2). intros st' Hrun.
  destruct (Setup_hangs_only_on_agent Scenarios.deaf_agent 3 [tt] ∅ st' Hrun)
    as (_ & _ & Hr & Hc).
  split; [exact Hr|exact Hc].
Defined.

Lemma Setup_env_frame_witness :
  SetupTestServerWithAgent Demo.healthy 5 [tt] (init Demo.ambient_agent)
  = (Ret (Demo.clients_of Scenarios.with_agent_ambient),
     Scenarios.with_agent_ambient.2)
  ∧ env Scenarios.with_agent_ambient.2 !! "HOME" = Demo.ambient_agent !! "HOME"
  ∧ env (tb_runCleanups Demo.healthy Scenarios.with_agent_ambient.2) !! "HOME"
    = Demo.ambient_agent !! "HOME".
Proof.
  assert (Hrun : SetupTestServerWithAgent Demo.healthy 5 [tt]
                   (init Demo.ambient_agent)
                 = (Ret (Demo.clients_of Scenarios.with_agent_ambient),
                    Scenarios.with_agent_ambient.2))
    by (vm_compute; reflexivity).
  split; [exact Hrun|]. revert Hrun.
  generalize (Demo.clients_of Scenarios.with_agent_ambient),
             (Scenarios.with_agent_ambient.2).
  intros clients st' Hrun.
  apply (Setup_env_frame Demo.healthy 5 [tt] Demo.ambient_agent _ st' "HOME"
           Hrun).
  unfold core_vars, agent_vars. cbn [app]. intros Hin.
  repeat (apply elem_of_cons in Hin as [Heq|Hin]; [discriminate Heq|]).
  by apply elem_of_nil in Hin.
Defined.

Lemma Setup_probe_requests_witness :
  SetupTestServerWithAgent Demo.healthy 5 [tt] (init ∅)
  = (Ret (Demo.clients_of Demo.with_agent), Demo.with_agent.2)
  ∧ exists p3 (k : nat),
      net_Listen Demo.healthy 2 = inr p3
      ∧ (k <= 3)%nat
      ∧ requests (trace Demo.with_agent.2) = replicate (S k) (health_url p3).
Proof.
  assert (Hrun : SetupTestServerWithAgent Demo.healthy 5 [tt] (init ∅)
                 = (Ret (Demo.clients_of Demo.with_agent), Demo.with_agent.2))
    by (vm_compute; reflexivity).
  split; [exact Hrun|]. revert Hrun.
  generalize (Demo.clients_of Demo.with_agent), (Demo.with_agent.2).
  intros clients st' Hrun.
  destruct (Setup_probe_requests Demo.healthy 5 [tt] ∅ _ st' Hrun)
    as [[_ Hno]|H]; [|exact H].
  destruct (Hno clients eq_refl).
Defined.

(** With CHARM_USE_SSH_AGENT set around the test, the client named
    [NoAgent] is built with the agent option on. *)
Lemma NoAgent_keeps_env_agent_witness :
  SetupTestServerWithAgent Demo.healthy 5 [tt] (init Demo.ambient_agent)
  = (Ret (Demo.clients_of Scenarios.with_agent_ambient),
     Scenarios.with_agent_ambient.2)
  ∧ NoAgent (Demo.clients_of Scenarios.with_agent_ambient)
    = Some (mkClient (mkClientConfig "localhost" 40000 40001
                        "/tmp/t/.client-data" true "/run/ssh-agent.sock" tt))
  ∧ exists noagent (read : @ClientConfig unit),
      NoAgent (Demo.clients_of Scenarios.with_agent_ambient) = Some noagent
      ∧ cc_UseSSHAgent (Config noagent) = cc_UseSSHAgent read
      ∧ cc_SSHAgentAddr (Config noagent) = cc_SSHAgentAddr read.
Proof.
  assert (Hrun : SetupTestServerWithAgent Demo.healthy 5 [tt]
                   (init Demo.ambient_agent)
                 = (Ret (Demo.clients_of Scenarios.with_agent_ambient),
                    Scenarios.with_agent_ambient.2))
    by (vm_compute; reflexivity).
  split; [exact Hrun|]. split; [vm_compute; reflexivity|]. revert Hrun.
  generalize (Demo.clients_of Scenarios.with_agent_ambient),
             (Scenarios.with_agent_ambient.2).
  intros clients st' Hrun.
  destruct (NoAgent_keeps_env_agent Demo.healthy 5 [tt] Demo.ambient_agent
              clients st' Hrun)
    as (noagent & p1 & p2 & p3 & kp & read & Hn & _ & _ & _ & _ & Hu & Ha & _).
  exists noagent, read. split_and!; [exact Hn|exact Hu|exact Ha].
Defined.

Lemma compareKeyLists_spec_witness :
  compareKeyLists Scenarios.keys_one_two Scenarios.keys_one_two = Some true
  ∧ compareKeyLists Scenarios.keys_one_two [] = Some false.
Proof.
  destruct (compareKeyLists_spec Scenarios.keys_one_two
              Scenarios.keys_one_two) as (_ & [_ Hsame] & _).
  destruct (compareKeyLists_spec Scenarios.keys_one_two []) as (_ & _ & Hlen).
  split; [exact (Hsame eq_refl)|apply Hlen; simpl; lia].
Defined.

Lemma keygen_running_not_reentered_witness :
  exists m',
    Keygen.feed (Foreign:=unit) (fun (_ : unit) (s : unit) => s)
                [Keygen.successMsg; Keygen.TickMsg tt]
                (inl Scenarios.quit_model)
    = inl m'
    ∧ Keygen.m_status m' ≠ Keygen.statusRunning
    ∧ Keygen.Subscriptions (Foreign:=unit)
        (fun _ : unit => inr tt : error + unit) (inl m') = None.
Proof.
  apply (keygen_running_not_reentered (Foreign:=unit)
           (fun (_ : unit) (s : unit) => s)
           (fun _ : unit => inr tt : error + unit)
           Scenarios.quit_model [Keygen.successMsg; Keygen.TickMsg tt]).
  discriminate.
Defined.

Lemma keygen_quit_iff_witness :
  (Keygen.Update (Foreign:=unit) (fun (_ : unit) (s : unit) => s)
                 (Keygen.KeyMsg "q") (inl Scenarios.quit_model)).2
  = Keygen.tea_Quit.
Proof.
  apply keygen_quit_iff. left. exists "q". split; [reflexivity|].
  right. right. reflexivity.
Defined.

Lemma keygen_feed_invariant_witness :
  exists m,
    Keygen.feed (Foreign:=unit) (fun (_ : unit) (s : unit) => s)
                [Keygen.TickMsg tt; Keygen.failedMsg "disk full"]
                (Keygen.Init (Foreign:=unit) tt).1
    = inl m
    ∧ Keygen.m_standalone m = true
    ∧ Keygen.m_status m ≠ Keygen.statusDone.
Proof.
  destruct (keygen_feed_invariant (Foreign:=unit)
              (fun (_ : unit) (s : unit) => s) tt
              (Keygen.Init (Foreign:=unit) tt).1
              [Keygen.TickMsg tt; Keygen.failedMsg "disk full"])
    as (m & Hm & _ & Hinit & _); [by right|].
  exists m. destruct (Hinit eq_refl) as [Hs Hd].
  split_and!; [exact Hm|exact Hs|exact Hd].
Defined.
